(** * cmmc-checker: the greeting and palette endpoints of [app.py]

    A shallow embedding of [src/app.py] and a verification of the properties
    its specification states about it.

    Layout:
    - Python text ([str] as a list of code points), [str.strip], the UTF-8
      codec, hexadecimal parsing and formatting;
    - [hashlib.md5] (RFC 1321);
    - the interface of the [random] module and of [str.lower];
    - the endpoints [hello_name] and [get_palette] in a state-and-exception
      monad over the process-wide generator;
    - CPython's Mersenne Twister as an instance of the interface;
    - the properties. *)

From Stdlib Require Import String Ascii ZArith List Lia Bool.
Import ListNotations.
Local Open Scope Z_scope.

(** ** Python text *)

(** A Python [str] is a sequence of Unicode code points; [bytes] is a
    sequence of octets. *)
Definition str := list Z.
Definition bytes := list Z.

(** An ASCII literal of the source, as a [str]. *)
Definition lit (s : string) : str :=
  map (fun a => Z.of_N (N_of_ascii a)) (list_ascii_of_string s).

(** Code points that can occur in text decoded from a request: the Unicode
    scalar values (no surrogates). *)
Definition is_scalar (c : Z) : bool :=
  ((0 <=? c) && (c <? 0xD800)) || ((0xE000 <=? c) && (c <? 0x110000)).

Definition is_text (s : str) : Prop := Forall (fun c => is_scalar c = true) s.

Definition str_eqb (a b : str) : bool :=
  if list_eq_dec Z.eq_dec a b then true else false.

(** [str.isspace] on one code point (CPython's [_PyUnicode_IsWhitespace]). *)
Definition isspace (c : Z) : bool :=
  ((0x09 <=? c) && (c <=? 0x0D)) || ((0x1C <=? c) && (c <=? 0x20))
  || (c =? 0x85) || (c =? 0xA0) || (c =? 0x1680)
  || ((0x2000 <=? c) && (c <=? 0x200A))
  || (c =? 0x2028) || (c =? 0x2029) || (c =? 0x202F) || (c =? 0x205F)
  || (c =? 0x3000).

(** [s.lstrip()], [s.rstrip()] and [s.strip()] with no argument. *)
Fixpoint lstrip (s : str) : str :=
  match s with
  | [] => []
  | c :: t => if isspace c then lstrip t else s
  end.

Definition rstrip (s : str) : str := rev (lstrip (rev s)).

Definition strip (s : str) : str := rstrip (lstrip s).

(** Truth value of a [str]: [not s] holds for the empty string only. *)
Definition truthy (s : str) : bool :=
  match s with [] => false | _ :: _ => true end.

(** ** The UTF-8 codec: [s.encode()] *)

Definition utf8_char (c : Z) : option bytes :=
  if c <? 0 then None
  else if c <? 0x80 then Some [c]
  else if c <? 0x800 then Some [0xC0 + c / 64; 0x80 + c mod 64]
  else if (0xD800 <=? c) && (c <=? 0xDFFF) then None
  else if c <? 0x10000 then
    Some [0xE0 + c / 4096; 0x80 + (c / 64) mod 64; 0x80 + c mod 64]
  else if c <? 0x110000 then
    Some [0xF0 + c / 262144; 0x80 + (c / 4096) mod 64;
          0x80 + (c / 64) mod 64; 0x80 + c mod 64]
  else None.

(** [None] stands for [UnicodeEncodeError] (a lone surrogate). *)
Fixpoint encode (s : str) : option bytes :=
  match s with
  | [] => Some []
  | c :: t =>
      match utf8_char c, encode t with
      | Some b, Some bs => Some (b ++ bs)
      | _, _ => None
      end
  end.

(** ** Hexadecimal text *)

(** The lowercase digit of a value below 16, as [hexdigest] and the [x]
    format write it. *)
Definition hexdigit (d : Z) : Z :=
  if d <? 10 then 48 + d else 87 + d.

(** The two digits of an octet, high one first. *)
Definition octet_digits (b : Z) : str :=
  [hexdigit (b / 16); hexdigit (b mod 16)].

(** The value of a digit accepted by [int(_, 16)]: [0-9], [a-f], [A-F]. *)
Definition hexval (c : Z) : option Z :=
  if (48 <=? c) && (c <=? 57) then Some (c - 48)
  else if (97 <=? c) && (c <=? 102) then Some (c - 87)
  else if (65 <=? c) && (c <=? 70) then Some (c - 55)
  else None.

Fixpoint int16_digits (acc : Z) (s : str) : option Z :=
  match s with
  | [] => Some acc
  | c :: t =>
      match hexval c with
      | Some d => int16_digits (16 * acc + d) t
      | None => None
      end
  end.

(** [int(s, 16)] on a plain run of hexadecimal digits; [None] is
    [ValueError].  The sign, the [0x] prefix, underscores and surrounding
    blanks that [int] also accepts cannot occur in a hex digest and are
    read as failures here. *)
Definition int16 (s : str) : option Z :=
  match s with
  | [] => None
  | _ :: _ => int16_digits 0 s
  end.

(** The digits of a non-negative integer in base 16, most significant
    first. *)
Fixpoint hex_digits (fuel : nat) (n : Z) (acc : str) : str :=
  match fuel with
  | O => hexdigit (n mod 16) :: acc
  | S fuel' =>
      if n <? 16 then hexdigit n :: acc
      else hex_digits fuel' (n / 16) (hexdigit (n mod 16) :: acc)
  end.

Definition hex (n : Z) : str := hex_digits (Z.to_nat (Z.log2 n)) n [].

(** Left padding with ['0'] up to [width] characters. *)
Definition zfill (width : nat) (s : str) : str :=
  repeat 48 (width - length s) ++ s.

(** The format specification [02x] of an f-string: lowercase hexadecimal,
    zero-padded to two characters, the sign counted in the width. *)
Definition format_02x (n : Z) : str :=
  if n <? 0 then 45 :: zfill 1 (hex (- n)) else zfill 2 (hex n).

(** The pattern [#[0-9a-f]{6}], matched against the whole string. *)
Definition is_lower_hex (c : Z) : bool :=
  ((48 <=? c) && (c <=? 57)) || ((97 <=? c) && (c <=? 102)).

Definition matches_hex_color (s : str) : bool :=
  match s with
  | 35 :: t => (length t =? 6)%nat && forallb is_lower_hex t
  | _ => false
  end.

(** ** [hashlib.md5] *)

Module MD5.

Definition add32 (a b : Z) : Z := (a + b) mod 2 ^ 32.

Definition not32 (a : Z) : Z := Z.lxor a 0xFFFFFFFF.

Definition rotl32 (x c : Z) : Z :=
  Z.lor (Z.land (Z.shiftl x c) 0xFFFFFFFF) (Z.shiftr x (32 - c)).

Definition shifts : list Z :=
  [7; 12; 17; 22; 7; 12; 17; 22; 7; 12; 17; 22; 7; 12; 17; 22;
   5; 9; 14; 20; 5; 9; 14; 20; 5; 9; 14; 20; 5; 9; 14; 20;
   4; 11; 16; 23; 4; 11; 16; 23; 4; 11; 16; 23; 4; 11; 16; 23;
   6; 10; 15; 21; 6; 10; 15; 21; 6; 10; 15; 21; 6; 10; 15; 21].

Definition sines : list Z :=
  [0xd76aa478; 0xe8c7b756; 0x242070db; 0xc1bdceee;
   0xf57c0faf; 0x4787c62a; 0xa8304613; 0xfd469501;
   0x698098d8; 0x8b44f7af; 0xffff5bb1; 0x895cd7be;
   0x6b901122; 0xfd987193; 0xa679438e; 0x49b40821;
   0xf61e2562; 0xc040b340; 0x265e5a51; 0xe9b6c7aa;
   0xd62f105d; 0x02441453; 0xd8a1e681; 0xe7d3fbc8;
   0x21e1cde6; 0xc33707d6; 0xf4d50d87; 0x455a14ed;
   0xa9e3e905; 0xfcefa3f8; 0x676f02d9; 0x8d2a4c8a;
   0xfffa3942; 0x8771f681; 0x6d9d6122; 0xfde5380c;
   0xa4beea44; 0x4bdecfa9; 0xf6bb4b60; 0xbebfbc70;
   0x289b7ec6; 0xeaa127fa; 0xd4ef3085; 0x04881d05;
   0xd9d4d039; 0xe6db99e5; 0x1fa27cf8; 0xc4ac5665;
   0xf4292244; 0x432aff97; 0xab9423a7; 0xfc93a039;
   0x655b59c3; 0x8f0ccc92; 0xffeff47d; 0x85845dd1;
   0x6fa87e4f; 0xfe2ce6e0; 0xa3014314; 0x4e0811a1;
   0xf7537e82; 0xbd3af235; 0x2ad7d2bb; 0xeb86d391].

Definition at_ (l : list Z) (i : Z) : Z := nth (Z.to_nat i) l 0.

(** The [n] low octets of [w], least significant first. *)
Fixpoint le_bytes (n : nat) (w : Z) : bytes :=
  match n with
  | O => []
  | S n' => w mod 256 :: le_bytes n' (w / 256)
  end.

(** Message padding: a [0x80] octet, zeros up to 56 modulo 64, and the
    bit length on 64 bits. *)
Definition pad (msg : bytes) : bytes :=
  let len := Z.of_nat (length msg) in
  msg ++ [0x80] ++ repeat 0 (Z.to_nat ((55 - len) mod 64))
      ++ le_bytes 8 ((8 * len) mod 2 ^ 64).

Fixpoint blocks (n : nat) (l : bytes) : list bytes :=
  match n with
  | O => []
  | S n' => firstn 64 l :: blocks n' (skipn 64 l)
  end.

(** The [i]-th 32-bit word of a block, little endian. *)
Definition word (block : bytes) (i : Z) : Z :=
  at_ block (4 * i) + 256 * at_ block (4 * i + 1)
  + 65536 * at_ block (4 * i + 2) + 16777216 * at_ block (4 * i + 3).

Definition state : Type := Z * Z * Z * Z.

Definition step (block : bytes) (st : state) (i : Z) : state :=
  let '(a, b, c, d) := st in
  let '(f, g) :=
    if i <? 16 then (Z.lor (Z.land b c) (Z.land (not32 b) d), i)
    else if i <? 32 then
      (Z.lor (Z.land d b) (Z.land (not32 d) c), (5 * i + 1) mod 16)
    else if i <? 48 then (Z.lxor (Z.lxor b c) d, (3 * i + 5) mod 16)
    else (Z.lxor c (Z.lor b (not32 d)), (7 * i) mod 16) in
  let f' := add32 (add32 (add32 f a) (at_ sines i)) (word block g) in
  (d, add32 b (rotl32 f' (at_ shifts i)), b, c).

Definition rounds : list Z := map Z.of_nat (seq 0 64).

Definition compress (st : state) (block : bytes) : state :=
  let '(a0, b0, c0, d0) := st in
  let '(a, b, c, d) := fold_left (step block) rounds st in
  (add32 a0 a, add32 b0 b, add32 c0 c, add32 d0 d).

Definition init : state := (0x67452301, 0xefcdab89, 0x98badcfe, 0x10325476).

Definition final (msg : bytes) : state :=
  let p := pad msg in
  fold_left compress (blocks (length p / 64) p) init.

(** [hashlib.md5(msg).digest()] *)
Definition digest (msg : bytes) : bytes :=
  let '(a, b, c, d) := final msg in
  le_bytes 4 a ++ le_bytes 4 b ++ le_bytes 4 c ++ le_bytes 4 d.

(** [hashlib.md5(msg).hexdigest()] *)
Definition hexdigest (msg : bytes) : str :=
  flat_map octet_digits (digest msg).

End MD5.

(** ** What the endpoints take from the standard library *)

(** The module [random].  Its functions act on one hidden generator shared
    by the whole process; [generator] is the type of its state.
    [seed a] is the state [random.seed(a)] installs for an integer [a],
    whatever the state was before; [randint a b g] is the value returned by
    [random.randint(a, b)] in state [g] and the state it leaves.  The law
    is the documented contract of [randint]: an integer [N] with
    [a <= N <= b]. *)
Module random.

Class Interface : Type := {
  generator : Type;
  seed : Z -> generator;
  randint : Z -> Z -> generator -> Z * generator;
  randint_range :
    forall a b g, a <= b -> a <= fst (randint a b g) <= b
}.

End random.

Definition ascii_lower (c : Z) : Z :=
  if (65 <=? c) && (c <=? 90) then c + 32 else c.

Definition is_ascii (s : str) : Prop := Forall (fun c => 0 <= c < 128) s.

(** [str.lower].  The Unicode case mapping is a table of the interpreter;
    on ASCII text it is the mapping of [A-Z] to [a-z]. *)
Class CaseMapping : Type := {
  lower : str -> str;
  lower_ascii : forall s, is_ascii s -> lower s = map ascii_lower s
}.

(** ** Exceptions and responses *)

Inductive exn : Type :=
| HTTPException (status_code : Z) (detail : str)
| UnicodeEncodeError
| ValueError.

Inductive result (A : Type) : Type :=
| Return (a : A)
| Raise (e : exn).

Arguments Return {A} a.
Arguments Raise {A} e.

Record HelloResponse : Type := { message : str }.

Record PaletteResponse : Type := {
  seed : str;
  colors : list str;
  keywords : list str
}.

(** ** [hello_name] *)

Definition hello_name (name : str) : result HelloResponse :=
  if negb (truthy name) || str_eqb (strip name) (lit "") then
    Raise (HTTPException 400 (lit "Name cannot be empty"))
  else
    Return {| message := lit "Hello, " ++ name ++ lit "!" |}.

(** ** [get_palette] *)

Section Palette.

Context {R : random.Interface} {U : CaseMapping}.

(** A computation that reads and writes the process-wide generator and
    either returns or raises.  The state an exception leaves is the state
    at the [raise]: nothing is rolled back. *)
Definition M (A : Type) : Type :=
  random.generator -> result A * random.generator.

Definition ret {A : Type} (a : A) : M A := fun g => (Return a, g).

Definition raise {A : Type} (e : exn) : M A := fun g => (Raise e, g).

Definition bind {A B : Type} (m : M A) (k : A -> M B) : M B :=
  fun g =>
    match m g with
    | (Return a, g') => k a g'
    | (Raise e, g') => (Raise e, g')
    end.

Notation "x <- m ;; k" := (bind m (fun x => k))
  (at level 61, m at next level, right associativity).

Notation "m ;;; k" := (bind m (fun _ => k))
  (at level 61, right associativity).

(** A fallible pure step: [None] raises [e]. *)
Definition try {A : Type} (e : exn) (o : option A) : M A :=
  match o with
  | Some a => ret a
  | None => raise e
  end.

(** [random.seed(a)] and [random.randint(a, b)] on the shared generator. *)
Definition random_seed (a : Z) : M unit :=
  fun _ => (Return tt, random.seed a).

Definition random_randint (a b : Z) : M Z :=
  fun g => let (v, g') := random.randint a b g in (Return v, g').

(** [int(hashlib.md5(data).hexdigest()[:8], 16)] *)
Definition seed_hash_of (data : bytes) : option Z :=
  int16 (firstn 8 (MD5.hexdigest data)).

(** The unsigned 32-bit integer of four octets, most significant first. *)
Definition be32 (b0 b1 b2 b3 : Z) : Z :=
  ((b0 * 256 + b1) * 256 + b2) * 256 + b3.

(** The loop [for _ in range(5)], [n] iterations left, [colors] the list
    appended to so far. *)
Fixpoint draw_colors (n : nat) (colors : list str) : M (list str) :=
  match n with
  | O => ret colors
  | S n' =>
      r <- random_randint 0 255 ;;
      g <- random_randint 0 255 ;;
      b <- random_randint 0 255 ;;
      draw_colors n'
        (colors ++ [lit "#" ++ format_02x r ++ format_02x g ++ format_02x b])
  end.

Definition get_palette (s : str) : M PaletteResponse :=
  if negb (truthy s) || str_eqb (strip s) (lit "") then
    raise (HTTPException 422 (lit "s must not be blank"))
  else
    data <- try UnicodeEncodeError (encode s) ;;
    seed_hash <- try ValueError (seed_hash_of data) ;;
    random_seed seed_hash ;;;
    colors <- draw_colors 5 [] ;;
    ret {| seed := s;
           colors := colors;
           keywords := [lower s;
                        s ++ lit "-vibe";
                        s ++ lit "-soft";
                        s ++ lit "-bold";
                        s ++ lit "-contrast"] |}.

(** *** The stages of [get_palette], as the specification names them

    These definitions are what the statements compare the handler with;
    [get_palette] itself is the definition above. *)

(** The blankness test of both handlers: [not s or s.strip() == ""]. *)
Definition blank (s : str) : bool :=
  negb (truthy s) || str_eqb (strip s) (lit "").

(** The derived numeric seed of [s]: [seed_hash] in [get_palette]. *)
Definition derived_seed (s : str) : option Z :=
  match encode s with
  | Some data => seed_hash_of data
  | None => None
  end.

(** [n] successive calls of [random.randint(0, 255)] from state [g]: the
    values in the order drawn, and the state left. *)
Fixpoint randints (n : nat) (g : random.generator)
  : list Z * random.generator :=
  match n with
  | O => ([], g)
  | S n' =>
      let (v, g1) := random.randint 0 255 g in
      let (vs, g2) := randints n' g1 in
      (v :: vs, g2)
  end.

(** [f"#{r:02x}{g:02x}{b:02x}"] *)
Definition hex_color (r g b : Z) : str :=
  lit "#" ++ format_02x r ++ format_02x g ++ format_02x b.

(** The colors written from a run of draws, three by three: red, green,
    blue of the first color, then of the second, and so on. *)
Fixpoint hex_colors (vs : list Z) : list str :=
  match vs with
  | r :: g :: b :: t => hex_color r g b :: hex_colors t
  | _ => []
  end.

(** The palette of [s] drawn from a generator seeded with [n]. *)
Definition palette_from (s : str) (n : Z) : PaletteResponse :=
  {| seed := s;
     colors := hex_colors (fst (randints 15 (random.seed n)));
     keywords := [lower s;
                  s ++ lit "-vibe";
                  s ++ lit "-soft";
                  s ++ lit "-bold";
                  s ++ lit "-contrast"] |}.

(** ** The routes *)

(** What a client of the routes sees of an answer. *)
Inductive body : Type :=
| Hello (r : HelloResponse)
| Palette (r : PaletteResponse)
| Detail (d : str)
| ValidationErrors
| ServerError.

Record Response : Type := { status_code : Z; content : body }.

(** The class of a status code: 2 for success, 4 for client errors. *)
Definition status_class (code : Z) : Z := code / 100.

(** How the framework answers for a handler: its value with status 200,
    an [HTTPException] with its own status code and detail, any other
    exception with status 500. *)
Definition respond {A : Type} (ok : A -> body) (r : result A) : Response :=
  match r with
  | Return a => {| status_code := 200; content := ok a |}
  | Raise (HTTPException code d) => {| status_code := code; content := Detail d |}
  | Raise _ => {| status_code := 500; content := ServerError |}
  end.

(** [GET /palette].  [s] is declared [Query(...)], a required parameter:
    when the query has no [s] the handler is not called and the framework
    answers 422 with its list of validation errors
    ([test_palette_missing_parameter]). *)
Definition palette_route (s : option str)
  : random.generator -> Response * random.generator :=
  fun g =>
    match s with
    | None => ({| status_code := 422; content := ValidationErrors |}, g)
    | Some s => let (r, g') := get_palette s g in (respond Palette r, g')
    end.

(** [GET /hello/{name}] *)
Definition hello_route (name : str) : Response :=
  respond Hello (hello_name name).

End Palette.

(** ** The page served at [/]: its script *)

(** Trimming by a class of characters: [strip] is [strip_by isspace], and
    the [trim] of the script is the same walk with its own class. *)
Fixpoint lstrip_by (p : Z -> bool) (s : str) : str :=
  match s with
  | [] => []
  | c :: t => if p c then lstrip_by p t else s
  end.

Definition strip_by (p : Z -> bool) (s : str) : str :=
  rev (lstrip_by p (rev (lstrip_by p s))).

Module Page.

(** What [String.prototype.trim] removes: the [WhiteSpace] and
    [LineTerminator] code points of ECMAScript.  They all lie in the basic
    plane, so trimming code points and trimming UTF-16 units agree. *)
Definition is_white_space (c : Z) : bool :=
  ((0x09 <=? c) && (c <=? 0x0D)) || (c =? 0x20) || (c =? 0xA0)
  || (c =? 0x1680) || ((0x2000 <=? c) && (c <=? 0x200A))
  || (c =? 0x2028) || (c =? 0x2029) || (c =? 0x202F) || (c =? 0x205F)
  || (c =? 0x3000) || (c =? 0xFEFF).

Definition trim (s : str) : str := strip_by is_white_space s.

(** [encodeURIComponent] accepts a string without lone surrogates. *)
Definition well_formed (s : str) : bool := forallb is_scalar s.

(** What [errorDiv.textContent] holds: a text written by the script or
    sent by the server, or a text made up by the browser (the message of
    an exception it raised, a value it turned into a string). *)
Inductive error_text : Type :=
| Text (t : str)
| Other.

(** The page: the value of the input [keyword], the text of [errorDiv],
    the colors of the swatches in [paletteDiv] in order, and the item
    [paletteKeyword] of [localStorage]. *)
Record page : Type := {
  value : str;
  error : error_text;
  swatches : list str;
  paletteKeyword : option str
}.

(** The page as it is served, with [v] typed in the input. *)
Definition initial (v : str) : page :=
  {| value := v; error := Text (lit ""); swatches := [];
     paletteKeyword := None |}.

(** [response.ok] *)
Definition ok (r : Response) : bool :=
  (200 <=? status_code r) && (status_code r <=? 299).

Section Script.

Context {R : random.Interface} {U : CaseMapping}.


(** [generatePalette()].  The request [fetch("/palette?s=" + ...)] is
    answered by [palette_route] on the keyword; the [catch] branch is
    taken when [encodeURIComponent] throws or the answer cannot be read
    as the script expects.  A fetch that fails on the network is not
    modelled. *)
Definition generatePalette (pg : page)
  : random.generator -> page * random.generator :=
  fun g =>
    let keyword := trim (value pg) in
    if negb (truthy keyword) then
      ({| value := value pg;
          error := Text (lit "Please enter a keyword");
          swatches := [];
          paletteKeyword := paletteKeyword pg |}, g)
    else if negb (well_formed keyword) then
      ({| value := value pg; error := Other; swatches := [];
          paletteKeyword := Some keyword |}, g)
    else
      let (response, g') := palette_route (Some keyword) g in
      if negb (ok response) then
        match content response with
        | Detail d =>
            ({| value := value pg;
                error := Text (if truthy d then d
                               else lit "Error generating palette");
                swatches := [];
                paletteKeyword := Some keyword |}, g')
        | _ =>
            ({| value := value pg; error := Other; swatches := [];
                paletteKeyword := Some keyword |}, g')
        end
      else
        match content response with
        | Palette data =>
            ({| value := value pg; error := Text (lit "");
                swatches := colors data;
                paletteKeyword := Some keyword |}, g')
        | _ =>
            ({| value := value pg; error := Other; swatches := [];
                paletteKeyword := Some keyword |}, g')
        end.

End Script.

End Page.

(** ** CPython's generator: the Mersenne Twister MT19937 *)

Module MT19937.

Definition N : Z := 624.
Definition M : Z := 397.

(** The array [mt] and the position [index] of the next word. *)
Record state : Type := { mt : list Z; index : Z }.

Definition get (l : list Z) (i : Z) : Z := nth (Z.to_nat i) l 0.

Definition set (l : list Z) (i : Z) (v : Z) : list Z :=
  firstn (Z.to_nat i) l ++ v :: skipn (S (Z.to_nat i)) l.

Definition u32 (x : Z) : Z := x mod 2 ^ 32.

Fixpoint init_genrand_from (n : nat) (i prev : Z) : list Z :=
  match n with
  | O => []
  | S n' =>
      let x := u32 (1812433253 * Z.lxor prev (Z.shiftr prev 30) + i) in
      x :: init_genrand_from n' (i + 1) x
  end.

(** [init_genrand(s)]: the array filled from a 32-bit seed. *)
Definition init_genrand (s : Z) : list Z :=
  u32 s :: init_genrand_from 623 1 (u32 s).

Definition wrap (a : list Z * Z) : list Z * Z :=
  let (l, i) := a in
  if N <=? i then (set l 0 (get l (N - 1)), 1) else (l, i).

(** One turn of the first loop of [init_by_array]. *)
Definition mix_key (key : list Z) (st : list Z * Z * Z) : list Z * Z * Z :=
  let '(l, i, j) := st in
  let p := get l (i - 1) in
  let v := u32 (Z.lxor (get l i) (u32 (Z.lxor p (Z.shiftr p 30) * 1664525))
                + get key j + j) in
  let (l', i') := wrap (set l i v, i + 1) in
  (l', i', if Z.of_nat (length key) <=? j + 1 then 0 else j + 1).

(** One turn of its second loop. *)
Definition mix_index (a : list Z * Z) : list Z * Z :=
  let (l, i) := a in
  let p := get l (i - 1) in
  let v := u32 (Z.lxor (get l i) (u32 (Z.lxor p (Z.shiftr p 30) * 1566083941))
                - i) in
  wrap (set l i v, i + 1).

Definition init_by_array (key : list Z) : state :=
  let k := Z.to_nat (Z.max N (Z.of_nat (length key))) in
  let '(l, i, _) := Nat.iter k (mix_key key) (init_genrand 19650218, 1, 0) in
  let (l', _) := Nat.iter 623 mix_index (l, i) in
  {| mt := set l' 0 0x80000000; index := N |}.

(** The 32-bit chunks of a non-negative integer, least significant first;
    one chunk for zero. *)
Fixpoint chunks (fuel : nat) (n : Z) : list Z :=
  match fuel with
  | O => [u32 n]
  | S fuel' => if n <? 2 ^ 32 then [n] else u32 n :: chunks fuel' (n / 2 ^ 32)
  end.

(** [random.seed(a)] for an integer [a]: the key is [abs(a)]. *)
Definition seed (a : Z) : state :=
  let n := Z.abs a in
  init_by_array (chunks (Z.to_nat (Z.log2 n / 32)) n).

(** One word of the regeneration, in place. *)
Definition twist (l : list Z) (kk : Z) : list Z :=
  let y := Z.lor (Z.land (get l kk) 0x80000000)
                 (Z.land (get l ((kk + 1) mod N)) 0x7fffffff) in
  set l kk (Z.lxor (Z.lxor (get l ((kk + M) mod N)) (Z.shiftr y 1))
                   (if Z.odd y then 0x9908b0df else 0)).

Definition temper (y : Z) : Z :=
  let y := Z.lxor y (Z.shiftr y 11) in
  let y := Z.lxor y (Z.land (Z.shiftl y 7) 0x9d2c5680) in
  let y := Z.lxor y (Z.land (Z.shiftl y 15) 0xefc60000) in
  u32 (Z.lxor y (Z.shiftr y 18)).

Definition genrand_uint32 (g : state) : Z * state :=
  let g := if N <=? index g
           then {| mt := fold_left twist (map Z.of_nat (seq 0 624)) (mt g);
                   index := 0 |}
           else g in
  (temper (get (mt g) (index g)), {| mt := mt g; index := index g + 1 |}).

(** [getrandbits(k)], [words] 32-bit words left to draw; the first word
    drawn is the least significant. *)
Fixpoint getrandbits_words (words : nat) (k : Z) (g : state) : Z * state :=
  match words with
  | O => (0, g)
  | S w =>
      let (r, g1) := genrand_uint32 g in
      let r := if k <? 32 then Z.shiftr r (32 - k) else r in
      let (hi, g2) := getrandbits_words w (k - 32) g1 in
      (r + 2 ^ 32 * hi, g2)
  end.

Definition getrandbits (k : Z) (g : state) : Z * state :=
  getrandbits_words (Z.to_nat ((k - 1) / 32 + 1)) k g.

Definition bit_length (n : Z) : Z := if n =? 0 then 0 else Z.log2 n + 1.

(** [_randbelow(n)]: draw [k = n.bit_length()] bits until the value is
    below [n].  [None]: no accepted value within [fuel] draws. *)
Fixpoint randbelow (fuel : nat) (n k : Z) (g : state) : option (Z * state) :=
  match fuel with
  | O => None
  | S fuel' =>
      let (r, g') := getrandbits k g in
      if r <? n then Some (r, g') else randbelow fuel' n k g'
  end.

(** [random.randint(a, b)], that is [a + _randbelow(b + 1 - a)].  The
    rejection loop of [_randbelow] has no bound in CPython; here it gives
    up after 128 draws and answers [a] without drawing (each draw of
    [randint(0, 255)] is accepted when the top bit of the word is 0). *)
Definition randint (a b : Z) (g : state) : Z * state :=
  let n := b + 1 - a in
  match randbelow 128 n (bit_length n) g with
  | Some (r, g') => (a + r, g')
  | None => (a, g)
  end.

End MT19937.

(** ** The Mersenne Twister meets the contract of [randint] *)

Module MT19937_facts.
Import MT19937.

Lemma temper_nonneg (y : Z) : 0 <= temper y.
Proof.
  unfold temper, u32. apply Z.mod_pos_bound. lia.
Qed.

Lemma genrand_uint32_nonneg (g : state) : 0 <= fst (genrand_uint32 g).
Proof.
  unfold genrand_uint32. cbv beta zeta. cbn [fst]. apply temper_nonneg.
Qed.

Lemma getrandbits_words_nonneg (w : nat) :
  forall k g, 0 <= fst (getrandbits_words w k g).
Proof.
  induction w as [|w IH]; intros k g; cbn [getrandbits_words].
  - cbn. lia.
  - pose proof (genrand_uint32_nonneg g) as Hr.
    destruct (genrand_uint32 g) as [r g1]. cbn [fst] in Hr.
    specialize (IH (k - 32) g1).
    destruct (getrandbits_words w (k - 32) g1) as [hi g2]. cbn [fst] in *.
    assert (0 <= (if k <? 32 then Z.shiftr r (32 - k) else r)).
    { destruct (k <? 32); [apply Z.shiftr_nonneg|]; assumption. }
    nia.
Qed.

Lemma randbelow_range (fuel : nat) :
  forall n k g r g', randbelow fuel n k g = Some (r, g') -> 0 <= r < n.
Proof.
  induction fuel as [|fuel IH]; intros n k g r g' H; cbn [randbelow] in H.
  - discriminate.
  - pose proof (getrandbits_words_nonneg (Z.to_nat ((k - 1) / 32 + 1)) k g) as H0.
    fold (getrandbits k g) in H0.
    destruct (getrandbits k g) as [r0 g0]. cbn [fst] in H0.
    destruct (r0 <? n) eqn:E.
    + injection H as <- <-. apply Z.ltb_lt in E. lia.
    + eapply IH; eassumption.
Qed.

Lemma randint_range (a b : Z) (g : state) :
  a <= b -> a <= fst (randint a b g) <= b.
Proof.
  intros Hab. unfold randint. cbv zeta.
  destruct (randbelow 128 (b + 1 - a) (bit_length (b + 1 - a)) g)
    as [[r g']|] eqn:E; cbn [fst].
  - apply randbelow_range in E. lia.
  - lia.
Qed.

End MT19937_facts.

(** CPython's [random] module. *)
Definition cpython_random : random.Interface :=
  {| random.generator := MT19937.state;
     random.seed := MT19937.seed;
     random.randint := MT19937.randint;
     random.randint_range := MT19937_facts.randint_range |}.

(** The ASCII rows of the case mapping: [str.lower] on ASCII text, every
    other code point left in place. *)
Definition ascii_case_mapping : CaseMapping :=
  {| lower := map ascii_lower;
     lower_ascii := fun s _ => eq_refl |}.

(** The generator as [random.seed(0)] leaves it, and the seed of the
    tests. *)
Definition seeded_0 : @random.generator cpython_random := random.seed 0.

Definition sunset : str := lit "sunset".

(** ** Text and hexadecimal lemmas *)

Lemma str_eqb_true_iff (a b : str) : str_eqb a b = true <-> a = b.
Proof.
  unfold str_eqb. destruct (list_eq_dec Z.eq_dec a b); split; congruence.
Qed.

Lemma blank_true_iff (s : str) : blank s = true <-> strip s = [].
Proof.
  unfold blank. change (lit "") with (@nil Z).
  rewrite orb_true_iff, str_eqb_true_iff. split.
  - intros [H|H]; [|exact H]. destruct s; [reflexivity|discriminate].
  - intros H. now right.
Qed.

Lemma blank_false_iff (s : str) : blank s = false <-> strip s <> [].
Proof.
  rewrite <- blank_true_iff. destruct (blank s); split; congruence.
Qed.

Lemma utf8_char_scalar (c : Z) :
  is_scalar c = true -> exists b, utf8_char c = Some b.
Proof.
  unfold is_scalar, utf8_char. intros H.
  apply orb_true_iff in H.
  rewrite !andb_true_iff, !Z.leb_le, !Z.ltb_lt in H.
  destruct (c <? 0) eqn:E0; [apply Z.ltb_lt in E0; lia|].
  destruct (c <? 0x80); [eauto|].
  destruct (c <? 0x800); [eauto|].
  destruct ((0xD800 <=? c) && (c <=? 0xDFFF)) eqn:E1.
  { apply andb_true_iff in E1. rewrite !Z.leb_le in E1. lia. }
  destruct (c <? 0x10000); [eauto|].
  destruct (c <? 0x110000) eqn:E2; [eauto|].
  apply Z.ltb_ge in E2. lia.
Qed.

Lemma encode_text (s : str) : is_text s -> exists data, encode s = Some data.
Proof.
  induction 1 as [|c t Hc _ [bs IH]]; cbn [encode].
  - eauto.
  - destruct (utf8_char_scalar c Hc) as [b ->]. rewrite IH. eauto.
Qed.

(** A surrogate cannot be encoded, and nothing else fails. *)
Lemma encode_none_not_text (s : str) : encode s = None -> ~ is_text s.
Proof.
  intros H Ht. destruct (encode_text s Ht) as [d Hd]. congruence.
Qed.

Lemma hexval_hexdigit (d : Z) : 0 <= d < 16 -> hexval (hexdigit d) = Some d.
Proof.
  intros Hd. unfold hexdigit, hexval.
  destruct (d <? 10) eqn:E; [apply Z.ltb_lt in E | apply Z.ltb_ge in E].
  - replace ((48 <=? 48 + d) && (48 + d <=? 57)) with true
      by (symmetry; apply andb_true_iff; rewrite !Z.leb_le; lia).
    f_equal. lia.
  - replace ((48 <=? 87 + d) && (87 + d <=? 57)) with false
      by (symmetry; apply andb_false_iff; right; apply Z.leb_gt; lia).
    replace ((97 <=? 87 + d) && (87 + d <=? 102)) with true
      by (symmetry; apply andb_true_iff; rewrite !Z.leb_le; lia).
    f_equal. lia.
Qed.

Lemma is_lower_hex_hexdigit (d : Z) :
  0 <= d < 16 -> is_lower_hex (hexdigit d) = true.
Proof.
  intros Hd. unfold hexdigit, is_lower_hex.
  apply orb_true_iff. rewrite !andb_true_iff, !Z.leb_le.
  destruct (d <? 10) eqn:E; [apply Z.ltb_lt in E | apply Z.ltb_ge in E]; lia.
Qed.

Lemma int16_digits_octet (acc b : Z) (t : str) :
  0 <= b < 256 ->
  int16_digits acc (octet_digits b ++ t) = int16_digits (256 * acc + b) t.
Proof.
  intros Hb. unfold octet_digits. cbn [app int16_digits].
  rewrite !hexval_hexdigit.
  - f_equal. pose proof (Z.div_mod b 16). lia.
  - apply Z.mod_pos_bound. lia.
  - split; [apply Z.div_pos; lia | apply Z.div_lt_upper_bound; lia].
Qed.

(** On an octet the format [02x] writes exactly its two digits. *)
Lemma format_02x_octet (v : Z) :
  0 <= v <= 255 -> format_02x v = octet_digits v.
Proof.
  intros Hv.
  assert (Hall : forallb (fun n => str_eqb (format_02x n) (octet_digits n))
                   (map Z.of_nat (seq 0 256)) = true) by (vm_compute; reflexivity).
  rewrite forallb_forall in Hall.
  apply str_eqb_true_iff, Hall.
  apply in_map_iff. exists (Z.to_nat v). split; [lia|].
  apply in_seq. lia.
Qed.

Lemma hex_color_matches (r g b : Z) :
  0 <= r <= 255 -> 0 <= g <= 255 -> 0 <= b <= 255 ->
  matches_hex_color (hex_color r g b) = true /\ length (hex_color r g b) = 7%nat.
Proof.
  intros Hr Hg Hb. unfold hex_color.
  rewrite !format_02x_octet by assumption.
  unfold octet_digits. change (lit "#") with [35].
  cbn [app matches_hex_color length Nat.eqb forallb andb].
  assert (D : forall v, 0 <= v <= 255 ->
            is_lower_hex (hexdigit (v / 16)) = true
            /\ is_lower_hex (hexdigit (v mod 16)) = true).
  { intros v Hv. split; apply is_lower_hex_hexdigit.
    - split; [apply Z.div_pos; lia | apply Z.div_lt_upper_bound; lia].
    - apply Z.mod_pos_bound. lia. }
  destruct (D r Hr) as [-> ->], (D g Hg) as [-> ->], (D b Hb) as [-> ->].
  split; reflexivity.
Qed.

(** ** The digest and the derived seed *)

Lemma le_bytes_4 (w : Z) :
  MD5.le_bytes 4 w =
  [w mod 256; w / 256 mod 256; w / 256 / 256 mod 256;
   w / 256 / 256 / 256 mod 256].
Proof. reflexivity. Qed.

(** A digest is 16 octets. *)
Lemma digest_octets (msg : bytes) :
  length (MD5.digest msg) = 16%nat
  /\ Forall (fun b => 0 <= b < 256) (MD5.digest msg).
Proof.
  unfold MD5.digest. destruct (MD5.final msg) as [[[a b] c] d].
  rewrite !le_bytes_4. cbn [app length]. split; [reflexivity|].
  repeat constructor; apply Z.mod_pos_bound; lia.
Qed.

Lemma hexdigest_length (msg : bytes) : length (MD5.hexdigest msg) = 32%nat.
Proof.
  unfold MD5.hexdigest. destruct (digest_octets msg) as [Hl _].
  revert Hl. generalize (MD5.digest msg). intros l Hl.
  do 16 (destruct l as [|? l]; [discriminate|]).
  destruct l; [reflexivity|discriminate].
Qed.

Lemma hexdigest_lower_hex (msg : bytes) :
  forallb is_lower_hex (MD5.hexdigest msg) = true.
Proof.
  unfold MD5.hexdigest. destruct (digest_octets msg) as [_ Hr].
  induction Hr as [|b l Hb _ IH]; [reflexivity|].
  cbn [flat_map octet_digits app forallb].
  rewrite IH, !is_lower_hex_hexdigit; [reflexivity| |].
  - apply Z.mod_pos_bound. lia.
  - split; [apply Z.div_pos; lia | apply Z.div_lt_upper_bound; lia].
Qed.

(** [int] never fails on the first eight digits of a digest: they spell
    the first four octets, most significant first. *)
Lemma seed_hash_of_digest (data : bytes) :
  exists b0 b1 b2 b3 rest,
    MD5.digest data = b0 :: b1 :: b2 :: b3 :: rest
    /\ (0 <= b0 < 256 /\ 0 <= b1 < 256 /\ 0 <= b2 < 256 /\ 0 <= b3 < 256)
    /\ seed_hash_of data = Some (be32 b0 b1 b2 b3).
Proof.
  unfold seed_hash_of, MD5.hexdigest.
  destruct (digest_octets data) as [Hl Hr].
  destruct (MD5.digest data) as [|b0 [|b1 [|b2 [|b3 rest]]]]; try discriminate.
  inversion Hr as [|? ? H0 Hr1]; subst.
  inversion Hr1 as [|? ? H1 Hr2]; subst.
  inversion Hr2 as [|? ? H2 Hr3]; subst.
  inversion Hr3 as [|? ? H3 _]; subst.
  exists b0, b1, b2, b3, rest. split; [reflexivity|]. split; [tauto|].
  cbn [flat_map]. unfold octet_digits at 1 2 3 4. cbn [app firstn int16].
  change (int16_digits 0
            (octet_digits b0 ++ octet_digits b1 ++ octet_digits b2
               ++ octet_digits b3 ++ []) = Some (be32 b0 b1 b2 b3)).
  rewrite !int16_digits_octet by assumption.
  cbn [int16_digits]. unfold be32. f_equal. lia.
Qed.

Lemma seed_hash_of_total (data : bytes) :
  exists n, seed_hash_of data = Some n /\ 0 <= n < 2 ^ 32.
Proof.
  destruct (seed_hash_of_digest data)
    as (b0 & b1 & b2 & b3 & rest & _ & (H0 & H1 & H2 & H3) & H).
  exists (be32 b0 b1 b2 b3). split; [exact H|]. unfold be32.
  change (2 ^ 32) with 4294967296. lia.
Qed.

(** ** The handlers *)

Section Properties.

Context {R : random.Interface} {U : CaseMapping}.

Lemma randints_length (n : nat) :
  forall g, length (fst (randints n g)) = n.
Proof.
  induction n as [|n IH]; intros g; cbn [randints]; [reflexivity|].
  destruct (random.randint 0 255 g) as [v g1].
  specialize (IH g1). destruct (randints n g1) as [vs g2].
  cbn [fst length] in *. now rewrite IH.
Qed.

Lemma randints_range (n : nat) :
  forall g, Forall (fun v => 0 <= v <= 255) (fst (randints n g)).
Proof.
  induction n as [|n IH]; intros g; cbn [randints]; [constructor|].
  pose proof (random.randint_range 0 255 g ltac:(lia)) as Hv.
  destruct (random.randint 0 255 g) as [v g1].
  specialize (IH g1). destruct (randints n g1) as [vs g2].
  cbn [fst] in *. now constructor.
Qed.

(** The loop draws [3 * n] values in a row and appends the colors they
    spell. *)
Lemma draw_colors_randints (n : nat) :
  forall acc g,
    draw_colors n acc g =
    (Return (acc ++ hex_colors (fst (randints (3 * n) g))),
     snd (randints (3 * n) g)).
Proof.
  induction n as [|n IH]; intros acc g.
  - cbn. now rewrite app_nil_r.
  - replace (3 * S n)%nat with (S (S (S (3 * n)))) by lia.
    cbn [draw_colors randints]. unfold bind, random_randint.
    destruct (random.randint 0 255 g) as [r g1].
    destruct (random.randint 0 255 g1) as [gr g2].
    destruct (random.randint 0 255 g2) as [b g3].
    rewrite IH. destruct (randints (3 * n) g3) as [vs g4].
    cbn [fst snd hex_colors]. fold (hex_color r gr b).
    now rewrite <- app_assoc.
Qed.

Lemma hex_colors_matches (n : nat) :
  forall vs, (length vs <= n)%nat ->
    Forall (fun v => 0 <= v <= 255) vs ->
    Forall (fun c => matches_hex_color c = true /\ length c = 7%nat)
           (hex_colors vs).
Proof.
  induction n as [|n IH]; intros vs Hl Hv.
  - destruct vs; [constructor | cbn in Hl; lia].
  - destruct vs as [|r [|g [|b t]]]; try constructor.
    + inversion Hv as [|? ? Hr Hv1]; subst.
      inversion Hv1 as [|? ? Hg Hv2]; subst.
      inversion Hv2 as [|? ? Hb Hv3]; subst.
      now apply hex_color_matches.
    + apply IH.
      * cbn [length] in Hl. lia.
      * inversion Hv as [|? ? _ Hv1]; subst.
        inversion Hv1 as [|? ? _ Hv2]; subst.
        now inversion Hv2.
Qed.

Lemma hex_colors_15 (vs : list Z) :
  length vs = 15%nat -> length (hex_colors vs) = 5%nat.
Proof.
  intros H. do 15 (destruct vs as [|? vs]; [discriminate|]).
  destruct vs; [reflexivity|discriminate].
Qed.

(** The colors of a palette: five strings of the pattern [#[0-9a-f]{6}]. *)
Lemma palette_from_colors (s : str) (n : Z) :
  length (colors (palette_from s n)) = 5%nat
  /\ Forall (fun c => matches_hex_color c = true /\ length c = 7%nat)
            (colors (palette_from s n)).
Proof.
  cbn [palette_from colors]. split.
  - apply hex_colors_15, randints_length.
  - apply (hex_colors_matches 15).
    + now rewrite randints_length.
    + apply randints_range.
Qed.

(** The three ways out of [get_palette]. *)
Lemma get_palette_blank (s : str) (g : random.generator) :
  strip s = [] ->
  get_palette s g = (Raise (HTTPException 422 (lit "s must not be blank")), g).
Proof.
  intros H. apply blank_true_iff in H. unfold get_palette.
  fold (blank s). now rewrite H.
Qed.

Lemma get_palette_unencodable (s : str) (g : random.generator) :
  strip s <> [] -> encode s = None ->
  get_palette s g = (Raise UnicodeEncodeError, g).
Proof.
  intros H He. apply blank_false_iff in H. unfold get_palette.
  fold (blank s). rewrite H. unfold bind, try. now rewrite He.
Qed.

Lemma get_palette_seeded (s : str) (n : Z) (g : random.generator) :
  strip s <> [] -> derived_seed s = Some n ->
  get_palette s g =
  (Return (palette_from s n), snd (randints 15 (random.seed n))).
Proof.
  intros H Hn. apply blank_false_iff in H. unfold get_palette.
  fold (blank s). rewrite H. unfold derived_seed in Hn.
  destruct (encode s) as [data|]; [|discriminate].
  unfold bind, try, ret, random_seed. rewrite Hn.
  rewrite draw_colors_randints. reflexivity.
Qed.

Lemma derived_seed_text (s : str) :
  is_text s -> exists n, derived_seed s = Some n /\ 0 <= n < 2 ^ 32.
Proof.
  intros Ht. destruct (encode_text s Ht) as [data Hd].
  unfold derived_seed. rewrite Hd. apply seed_hash_of_total.
Qed.

(** X4: whatever [get_palette] raises, the 422 error or
    [UnicodeEncodeError], it raises before it seeds: the generator is in
    the state the call found. *)
Lemma get_palette_raise_keeps_state (s : str) (g : random.generator) (e : exn) :
  fst (get_palette s g) = Raise e -> snd (get_palette s g) = g.
Proof.
  destruct (list_eq_dec Z.eq_dec (strip s) []) as [Hb|Hb].
  - now rewrite get_palette_blank.
  - destruct (derived_seed s) as [n|] eqn:Hn.
    + rewrite (get_palette_seeded s n g Hb Hn). discriminate.
    + unfold derived_seed in Hn. destruct (encode s) as [data|] eqn:He.
      * destruct (seed_hash_of_total data) as (n & Hs & _). congruence.
      * now rewrite get_palette_unencodable.
Qed.

(** The result of a call does not depend on the state it finds. *)
Lemma get_palette_result_any_state (s : str) (g g' : random.generator) :
  fst (get_palette s g) = fst (get_palette s g').
Proof.
  destruct (list_eq_dec Z.eq_dec (strip s) []) as [Hb|Hb].
  - now rewrite !get_palette_blank.
  - destruct (derived_seed s) as [n|] eqn:Hn.
    + now rewrite !(get_palette_seeded s n).
    + unfold derived_seed in Hn. destruct (encode s) as [data|] eqn:He.
      * destruct (seed_hash_of_total data) as (n & Hs & _). congruence.
      * now rewrite !get_palette_unencodable.
Qed.

(** *** Determinism *)

(** C1: for a non-blank seed [s], a second call of [get_palette] made
    right after a first one, on the generator state the first one left,
    has the same outcome; on text the outcome is one and the same palette,
    with 5 colors and 5 keywords. *)
Theorem get_palette_twice (s : str) (g : random.generator) :
  strip s <> [] ->
  fst (get_palette s (snd (get_palette s g))) = fst (get_palette s g)
  /\ (is_text s ->
      exists p,
        fst (get_palette s g) = Return p
        /\ fst (get_palette s (snd (get_palette s g))) = Return p
        /\ length (colors p) = 5%nat
        /\ length (keywords p) = 5%nat).
Proof.
  intros Hs. split; [apply get_palette_result_any_state|].
  intros Ht. destruct (derived_seed_text s Ht) as (n & Hn & _).
  exists (palette_from s n).
  rewrite (get_palette_result_any_state s (snd (get_palette s g)) g).
  rewrite (get_palette_seeded s n g Hs Hn). cbn [fst].
  repeat split. apply palette_from_colors.
Qed.

(** *** The derived seed *)

(** C2: the number [get_palette] seeds the generator with is the first 8
    characters of the MD5 hex digest of the UTF-8 encoding of [s] read in
    base 16, that is the first four octets of the digest as an unsigned
    32-bit integer; the palette and the state left are those obtained from
    [random.seed] of that number and of nothing else. *)
Theorem derived_seed_md5_prefix (s : str) :
  is_text s ->
  exists data n b0 b1 b2 b3 rest,
    encode s = Some data
    /\ MD5.digest data = b0 :: b1 :: b2 :: b3 :: rest
    /\ int16 (firstn 8 (MD5.hexdigest data)) = Some n
    /\ n = be32 b0 b1 b2 b3
    /\ 0 <= n < 2 ^ 32
    /\ derived_seed s = Some n
    /\ (strip s <> [] ->
        forall g,
          get_palette s g =
          (Return (palette_from s n), snd (randints 15 (random.seed n)))).
Proof.
  intros Ht. destruct (encode_text s Ht) as [data Hd].
  destruct (seed_hash_of_digest data)
    as (b0 & b1 & b2 & b3 & rest & Hdig & _ & Hn).
  destruct (seed_hash_of_total data) as (n & Hn' & Hr).
  assert (n = be32 b0 b1 b2 b3) as Heq by congruence.
  assert (derived_seed s = Some n) as Hds
      by (unfold derived_seed; now rewrite Hd).
  exists data, n, b0, b1, b2, b3, rest.
  repeat split; try assumption; try lia.
  intros Hs g. now apply get_palette_seeded.
Qed.

(** C10: for every [s], the derived seed [get_palette] computes from the
    encoding of [s] exists and lies in [0, 2^32): eight hexadecimal digits
    fit in 32 bits.  No seed is derived only when [s] cannot be encoded. *)
Theorem derived_seed_range (s : str) :
  match encode s with
  | Some data =>
      exists n,
        seed_hash_of data = Some n
        /\ derived_seed s = Some n
        /\ 0 <= n < 2 ^ 32
  | None => derived_seed s = None
  end.
Proof.
  unfold derived_seed. destruct (encode s) as [data|]; [|reflexivity].
  destruct (seed_hash_of_total data) as (n & Hn & Hr).
  exists n. repeat split; try assumption; apply Hr.
Qed.

(** *** Colors and keywords *)

(** C3: the palette of a non-blank text [s] has exactly 5 colors; they
    are written from 15 successive draws of [random.randint(0, 255)] on
    the generator seeded with the derived seed, each within [0, 255] and
    written as its two hexadecimal digits, color [i] from draws [3i],
    [3i+1], [3i+2] as red, green, blue; each color has 7 characters and
    matches [#[0-9a-f]{6}]. *)
Theorem get_palette_colors (s : str) (g : random.generator) :
  is_text s -> strip s <> [] ->
  exists p n vs,
    fst (get_palette s g) = Return p
    /\ derived_seed s = Some n
    /\ vs = fst (randints 15 (random.seed n))
    /\ length vs = 15%nat
    /\ Forall (fun v => 0 <= v <= 255 /\ format_02x v = octet_digits v) vs
    /\ length (colors p) = 5%nat
    /\ (forall i, (i < 5)%nat ->
          nth i (colors p) [] =
          hex_color (nth (3 * i) vs 0) (nth (3 * i + 1) vs 0)
                    (nth (3 * i + 2) vs 0))
    /\ Forall (fun c => matches_hex_color c = true /\ length c = 7%nat)
              (colors p).
Proof.
  intros Ht Hs. destruct (derived_seed_text s Ht) as (n & Hn & _).
  exists (palette_from s n), n, (fst (randints 15 (random.seed n))).
  rewrite (get_palette_seeded s n g Hs Hn). cbn [fst].
  split; [reflexivity|]. split; [assumption|]. split; [reflexivity|].
  split; [apply randints_length|].
  split.
  { eapply Forall_impl; [|apply randints_range].
    intros v Hv. split; [exact Hv | now apply format_02x_octet]. }
  split; [apply palette_from_colors|]. split; [|apply palette_from_colors].
  cbn [palette_from colors].
  pose proof (randints_length 15 (random.seed n)) as Hl.
  revert Hl. generalize (fst (randints 15 (random.seed n))). intros vs Hl i Hi.
  do 15 (destruct vs as [|? vs]; [discriminate|]).
  do 5 (destruct i as [|i]; [reflexivity|]). lia.
Qed.

(** C4: the palette of a non-blank text [s] echoes [s] as its seed and
    has the keywords [lower(s)], [s-vibe], [s-soft], [s-bold],
    [s-contrast] in that order, the last four on [s] as given; for
    [sunset] they are [sunset], [sunset-vibe], [sunset-soft],
    [sunset-bold], [sunset-contrast]. *)
Theorem get_palette_keywords (s : str) (g : random.generator) :
  is_text s -> strip s <> [] ->
  exists p,
    fst (get_palette s g) = Return p
    /\ seed p = s
    /\ keywords p =
       [lower s; s ++ lit "-vibe"; s ++ lit "-soft"; s ++ lit "-bold";
        s ++ lit "-contrast"]
    /\ (s = lit "sunset" ->
        keywords p =
        [lit "sunset"; lit "sunset-vibe"; lit "sunset-soft";
         lit "sunset-bold"; lit "sunset-contrast"]).
Proof.
  intros Ht Hs. destruct (derived_seed_text s Ht) as (n & Hn & _).
  exists (palette_from s n). rewrite (get_palette_seeded s n g Hs Hn).
  cbn [fst palette_from seed keywords]. repeat split.
  intros ->. rewrite lower_ascii; [reflexivity|].
  repeat constructor; cbn; lia.
Qed.

(** *** Errors *)

(** C5, as the code has it: [get_palette] tests blankness itself.  On
    text it raises exactly when the trimmed input is empty, and then the
    422 error; otherwise it returns a palette. *)
Theorem get_palette_raises_iff_blank (s : str) (g : random.generator) :
  is_text s ->
  match fst (get_palette s g) with
  | Return _ => strip s <> []
  | Raise e =>
      strip s = [] /\ e = HTTPException 422 (lit "s must not be blank")
  end.
Proof.
  intros Ht. destruct (list_eq_dec Z.eq_dec (strip s) []) as [Hb|Hb].
  - rewrite (get_palette_blank s g Hb). cbn [fst]. now split.
  - destruct (derived_seed_text s Ht) as (n & Hn & _).
    rewrite (get_palette_seeded s n g Hb Hn). cbn [fst]. exact Hb.
Qed.

(** C6: [hello_name] returns ["Hello, " + name + "!"] on the name as
    given when its trimmed form is not empty, and raises the 400 error
    [Name cannot be empty] exactly when the trimmed form is empty. *)
Theorem hello_name_spec (name : str) :
  (strip name <> [] ->
   hello_name name =
   Return {| message := lit "Hello, " ++ name ++ lit "!" |})
  /\ (strip name = [] ->
      hello_name name =
      Raise (HTTPException 400 (lit "Name cannot be empty")))
  /\ ((exists e, hello_name name = Raise e) <-> strip name = [])
  /\ (strip name = [] ->
      status_code (hello_route name) = 400
      /\ status_class (status_code (hello_route name)) = 4).
Proof.
  unfold hello_route, hello_name. fold (blank name).
  destruct (blank name) eqn:Hb.
  - apply blank_true_iff in Hb. repeat split; try congruence; eauto.
  - apply blank_false_iff in Hb. repeat split; try congruence.
    intros [e He]. discriminate.
Qed.

(** C7, as the code has it: a missing [s] and a blank [s] are answered
    differently, the first with the validation errors of the framework,
    the second with the detail [s must not be blank], but both with
    status 422, hence in the same class; any non-blank text is answered
    with status 200. *)
Theorem palette_route_errors (s : str) (g : random.generator) :
  strip s = [] ->
  palette_route None g =
  ({| status_code := 422; content := ValidationErrors |}, g)
  /\ palette_route (Some s) g =
     ({| status_code := 422;
         content := Detail (lit "s must not be blank") |}, g)
  /\ status_class (status_code (fst (palette_route None g))) =
     status_class (status_code (fst (palette_route (Some s) g)))
  /\ content (fst (palette_route None g)) <>
     content (fst (palette_route (Some s) g))
  /\ (forall s', is_text s' -> strip s' <> [] ->
      exists p,
        fst (palette_route (Some s') g) =
        {| status_code := 200; content := Palette p |}).
Proof.
  intros Hb. unfold palette_route.
  rewrite (get_palette_blank s g Hb). cbn [respond fst status_code content].
  repeat split; try discriminate.
  intros s' Ht Hs. destruct (derived_seed_text s' Ht) as (n & Hn & _).
  exists (palette_from s' n). now rewrite (get_palette_seeded s' n g Hs Hn).
Qed.

(** C9: when the trimmed input is empty [get_palette] raises its error
    before it seeds: the state of the generator is the one it found. *)
Theorem get_palette_blank_keeps_state (s : str) (g : random.generator) :
  strip s = [] ->
  fst (get_palette s g) = Raise (HTTPException 422 (lit "s must not be blank"))
  /\ snd (get_palette s g) = g.
Proof.
  intros Hb. now rewrite (get_palette_blank s g Hb).
Qed.

(** *** The shared generator *)

(** C8, as the code has it: [get_palette] works on the one generator of
    the process.  A call on a non-blank text leaves it in the state
    reached from [random.seed] of the derived seed by 15 draws; since the
    call seeds before it draws (and runs without a point of suspension),
    its result is the same whatever state the calls before it left. *)
Theorem get_palette_shared_generator (s : str) (g g' : random.generator) :
  fst (get_palette s g) = fst (get_palette s g')
  /\ (is_text s -> strip s <> [] ->
      exists n,
        derived_seed s = Some n
        /\ snd (get_palette s g) = snd (randints 15 (random.seed n))).
Proof.
  split; [apply get_palette_result_any_state|].
  intros Ht Hs. destruct (derived_seed_text s Ht) as (n & Hn & _).
  exists n. split; [exact Hn|]. now rewrite (get_palette_seeded s n g Hs Hn).
Qed.

End Properties.

(** ** Trimming *)

Section Strip_by.

Variable p : Z -> bool.

Lemma lstrip_by_nil_iff (s : str) :
  lstrip_by p s = [] <-> forallb p s = true.
Proof.
  induction s as [|c t IH]; cbn [lstrip_by forallb]; [tauto|].
  destruct (p c); cbn [andb]; [exact IH | split; discriminate].
Qed.

Lemma lstrip_by_head (s : str) (c : Z) (t : str) :
  lstrip_by p s = c :: t -> p c = false.
Proof.
  induction s as [|a s IH]; cbn [lstrip_by]; [discriminate|].
  destruct (p a) eqn:E; [exact IH|]. intros H. now injection H as <- _.
Qed.

Lemma lstrip_by_idem (s : str) :
  lstrip_by p (lstrip_by p s) = lstrip_by p s.
Proof.
  destruct (lstrip_by p s) as [|c t] eqn:E; [reflexivity|].
  cbn [lstrip_by]. now rewrite (lstrip_by_head s c t E).
Qed.

Lemma lstrip_by_snoc (u : str) (c : Z) :
  p c = false -> lstrip_by p (u ++ [c]) = lstrip_by p u ++ [c].
Proof.
  intros Hc. induction u as [|a u IH]; cbn [app lstrip_by].
  - now rewrite Hc.
  - destruct (p a); [exact IH | reflexivity].
Qed.

Lemma lstrip_by_split (s : str) :
  exists l, s = l ++ lstrip_by p s /\ forallb p l = true.
Proof.
  induction s as [|a s (l & Hl & Hp)]; cbn [lstrip_by].
  - now exists [].
  - destruct (p a) eqn:E.
    + exists (a :: l). cbn [app forallb]. rewrite E, Hp. now rewrite <- Hl.
    + now exists [].
Qed.

Lemma forallb_rev (s : str) : forallb p (rev s) = forallb p s.
Proof.
  induction s as [|a s IH]; [reflexivity|].
  cbn [rev forallb]. rewrite forallb_app, IH. cbn [forallb].
  now rewrite andb_true_r, andb_comm.
Qed.

Lemma rev_strip_by (s : str) :
  rev (strip_by p s) = lstrip_by p (rev (lstrip_by p s)).
Proof. unfold strip_by. apply rev_involutive. Qed.

(** Trimming leaves nothing exactly when every character is in the
    class. *)
Lemma strip_by_nil_iff (s : str) :
  strip_by p s = [] <-> forallb p s = true.
Proof.
  rewrite <- (lstrip_by_nil_iff s).
  split; intros H.
  - apply (f_equal (@rev Z)) in H. rewrite rev_strip_by in H. cbn [rev] in H.
    apply lstrip_by_nil_iff in H. rewrite forallb_rev in H.
    apply lstrip_by_nil_iff in H. now rewrite lstrip_by_idem in H.
  - unfold strip_by. now rewrite H.
Qed.

Lemma strip_by_cons (s : str) (c : Z) (t : str) :
  lstrip_by p s = c :: t ->
  strip_by p s = c :: rev (lstrip_by p (rev t)).
Proof.
  intros H. unfold strip_by. rewrite H. cbn [rev].
  rewrite (lstrip_by_snoc _ c (lstrip_by_head s c t H)).
  now rewrite rev_app_distr.
Qed.

(** What is left begins and ends outside the class. *)
Lemma strip_by_first (s : str) (c : Z) (t : str) :
  strip_by p s = c :: t -> p c = false.
Proof.
  intros H. destruct (lstrip_by p s) as [|a u] eqn:E.
  - unfold strip_by in H. rewrite E in H. discriminate.
  - rewrite (strip_by_cons s a u E) in H. injection H as <- _.
    exact (lstrip_by_head s a u E).
Qed.

Lemma strip_by_last (s : str) (c : Z) (t : str) :
  rev (strip_by p s) = c :: t -> p c = false.
Proof.
  rewrite rev_strip_by. apply lstrip_by_head.
Qed.

Lemma strip_by_idem (s : str) :
  strip_by p (strip_by p s) = strip_by p s.
Proof.
  assert (H1 : lstrip_by p (strip_by p s) = strip_by p s).
  { destruct (strip_by p s) as [|c t] eqn:E; [reflexivity|].
    cbn [lstrip_by]. now rewrite (strip_by_first s c t E). }
  unfold strip_by at 1. rewrite H1, rev_strip_by, lstrip_by_idem.
  now rewrite <- rev_strip_by, rev_involutive.
Qed.

(** It is the input without a prefix and a suffix made of the class. *)
Lemma strip_by_split (s : str) :
  exists l r,
    s = l ++ strip_by p s ++ r
    /\ forallb p l = true /\ forallb p r = true.
Proof.
  destruct (lstrip_by_split s) as (l & Hl & Hpl).
  destruct (lstrip_by_split (rev (lstrip_by p s))) as (r & Hr & Hpr).
  exists l, (rev r). repeat split.
  - rewrite Hl at 1. f_equal.
    apply (f_equal (@rev Z)) in Hr.
    rewrite rev_involutive, rev_app_distr in Hr. exact Hr.
  - exact Hpl.
  - now rewrite forallb_rev.
Qed.

Lemma strip_by_Forall (P : Z -> Prop) (s : str) :
  Forall P s -> Forall P (strip_by p s).
Proof.
  intros H. destruct (strip_by_split s) as (l & r & Hs & _).
  rewrite Hs in H. apply Forall_app in H as [_ H].
  now apply Forall_app in H as [H _].
Qed.

End Strip_by.

Lemma lstrip_eq (s : str) : lstrip s = lstrip_by isspace s.
Proof.
  induction s as [|c t IH]; [reflexivity|].
  cbn [lstrip lstrip_by]. now rewrite IH.
Qed.

Lemma strip_eq (s : str) : strip s = strip_by isspace s.
Proof.
  unfold strip, rstrip, strip_by. now rewrite !lstrip_eq.
Qed.

(** The test of both handlers rejects the strings made of whitespace
    only, the empty one among them. *)
Lemma strip_nil_iff (s : str) : strip s = [] <-> forallb isspace s = true.
Proof. rewrite strip_eq. apply strip_by_nil_iff. Qed.

(** ** More on the handlers *)

Lemma utf8_char_some_scalar (c : Z) (b : bytes) :
  utf8_char c = Some b -> is_scalar c = true.
Proof.
  unfold utf8_char, is_scalar. intros H.
  apply orb_true_iff. rewrite !andb_true_iff, !Z.leb_le, !Z.ltb_lt.
  destruct (c <? 0) eqn:E0; [discriminate|]. apply Z.ltb_ge in E0.
  destruct (c <? 0x80) eqn:E1; [apply Z.ltb_lt in E1; lia|].
  destruct (c <? 0x800) eqn:E2; [apply Z.ltb_lt in E2; lia|].
  destruct ((0xD800 <=? c) && (c <=? 0xDFFF)) eqn:E3; [discriminate|].
  apply andb_false_iff in E3. rewrite !Z.leb_gt in E3.
  destruct (c <? 0x10000) eqn:E4; [apply Z.ltb_lt in E4; lia|].
  apply Z.ltb_ge in E4.
  destruct (c <? 0x110000) eqn:E5; [apply Z.ltb_lt in E5; lia|discriminate].
Qed.

(** [s.encode()] succeeds on text and on nothing else. *)
Lemma encode_some_iff (s : str) :
  (exists data, encode s = Some data) <-> is_text s.
Proof.
  split; [|apply encode_text].
  induction s as [|c t IH]; intros [data H]; [constructor|].
  cbn [encode] in H.
  destruct (utf8_char c) as [b|] eqn:Ec; [|discriminate].
  destruct (encode t) as [bs|] eqn:Et; [|discriminate].
  constructor; [exact (utf8_char_some_scalar c b Ec) | apply IH; eauto].
Qed.

Lemma hex_colors_length (n : nat) :
  forall vs, length vs = (3 * n)%nat -> length (hex_colors vs) = n.
Proof.
  induction n as [|n IH]; intros vs H.
  - destruct vs; [reflexivity|discriminate].
  - destruct vs as [|r [|g [|b t]]]; cbn [length] in H; try lia.
    cbn [hex_colors length]. f_equal. apply IH. lia.
Qed.

(** X1: [hello_name] refuses exactly the names made of whitespace only
    (the empty name among them) and greets every other name. *)
Theorem hello_name_whitespace_only (name : str) :
  (hello_name name = Raise (HTTPException 400 (lit "Name cannot be empty"))
   <-> forallb isspace name = true)
  /\ (hello_name name =
      Return {| message := lit "Hello, " ++ name ++ lit "!" |}
      <-> forallb isspace name = false).
Proof.
  unfold hello_name. fold (blank name).
  destruct (blank name) eqn:Hb.
  - apply blank_true_iff, strip_nil_iff in Hb. rewrite Hb.
    split; split; intros; try reflexivity; discriminate.
  - assert (forallb isspace name = false) as Hf.
    { apply blank_false_iff in Hb. rewrite strip_nil_iff in Hb.
      now destruct (forallb isspace name). }
    rewrite Hf. split; split; intros; try reflexivity; discriminate.
Qed.

(** X5: the greeting tells the name: two names greeted alike are the
    same name, blanks included. *)
Theorem hello_name_injective (n1 n2 : str) (r : HelloResponse) :
  hello_name n1 = Return r -> hello_name n2 = Return r -> n1 = n2.
Proof.
  unfold hello_name. fold (blank n1) (blank n2).
  destruct (blank n1); [discriminate|]. destruct (blank n2); [discriminate|].
  intros H1 H2. rewrite <- H2 in H1. injection H1 as H.
  now apply app_inv_tail in H.
Qed.

(** X6: a color reads back: for channels within [0, 255] the three pairs
    of digits after the [#] parse in base 16 to the red, green and blue
    that were formatted. *)
Theorem hex_color_round_trip (r g b : Z) :
  0 <= r <= 255 -> 0 <= g <= 255 -> 0 <= b <= 255 ->
  int16 (firstn 2 (skipn 1 (hex_color r g b))) = Some r
  /\ int16 (firstn 2 (skipn 3 (hex_color r g b))) = Some g
  /\ int16 (firstn 2 (skipn 5 (hex_color r g b))) = Some b.
Proof.
  intros Hr Hg Hb. unfold hex_color.
  rewrite !format_02x_octet by assumption.
  change (lit "#") with [35].
  assert (P : forall v, 0 <= v <= 255 ->
            int16 [hexdigit (v / 16); hexdigit (v mod 16)] = Some v).
  { intros v Hv. cbn [int16].
    change (int16_digits 0 (octet_digits v ++ []) = Some v).
    rewrite int16_digits_octet by lia. reflexivity. }
  unfold octet_digits. cbn [app skipn firstn].
  now rewrite !P.
Qed.

Lemma is_text_or_not (s : str) : is_text s \/ ~ is_text s.
Proof.
  destruct (encode s) as [d|] eqn:E.
  - left. apply encode_some_iff. eauto.
  - right. now apply encode_none_not_text.
Qed.

Section More.

Context {R : random.Interface} {U : CaseMapping}.

(** X2: [get_palette] answers the 422 error exactly on the strings made
    of whitespace only, and returns a palette exactly on the text that is
    not. *)
Theorem get_palette_whitespace_only (s : str) (g : random.generator) :
  (fst (get_palette s g) =
   Raise (HTTPException 422 (lit "s must not be blank"))
   <-> forallb isspace s = true)
  /\ ((exists p, fst (get_palette s g) = Return p)
      <-> forallb isspace s = false /\ is_text s).
Proof.
  destruct (forallb isspace s) eqn:Hf.
  - assert (Hb : strip s = []) by now apply strip_nil_iff.
    rewrite (get_palette_blank s g Hb). cbn [fst].
    split; split; try tauto; try discriminate.
    + intros [p Hp]. discriminate.
    + intros [Hx _]. discriminate.
  - assert (Hb : strip s <> []).
    { rewrite strip_nil_iff, Hf. discriminate. }
    destruct (derived_seed s) as [n|] eqn:Hn.
    + rewrite (get_palette_seeded s n g Hb Hn). cbn [fst].
      split; split; try discriminate; eauto.
      intros _. split; [reflexivity|]. apply encode_some_iff.
      unfold derived_seed in Hn. destruct (encode s); [eauto|discriminate].
    + assert (He : encode s = None).
      { unfold derived_seed in Hn. destruct (encode s) as [data|]; [|reflexivity].
        destruct (seed_hash_of_total data) as (n & Hs & _). congruence. }
      rewrite (get_palette_unencodable s g Hb He). cbn [fst].
      split; split; try discriminate.
      * intros [p Hp]. discriminate.
      * intros [_ Ht]. now apply encode_none_not_text in He.
Qed.

(** X3: [get_palette] raises two exceptions and no other: its own 422
    error, and [UnicodeEncodeError] on a string that is not blank and
    holds a lone surrogate.  [int] never raises [ValueError] on the
    digest. *)
Theorem get_palette_exceptions (s : str) (g : random.generator) :
  (fst (get_palette s g) = Raise UnicodeEncodeError
   <-> forallb isspace s = false /\ ~ is_text s)
  /\ fst (get_palette s g) <> Raise ValueError
  /\ (forall code d, fst (get_palette s g) = Raise (HTTPException code d) ->
      code = 422 /\ d = lit "s must not be blank").
Proof.
  destruct (list_eq_dec Z.eq_dec (strip s) []) as [Hb|Hb].
  - rewrite (get_palette_blank s g Hb). cbn [fst].
    apply strip_nil_iff in Hb.
    repeat split; try discriminate; try congruence.
    intros [Hx _]. congruence.
  - assert (Hf : forallb isspace s = false).
    { rewrite strip_nil_iff in Hb. now destruct (forallb isspace s). }
    destruct (derived_seed s) as [n|] eqn:Hn.
    + rewrite (get_palette_seeded s n g Hb Hn). cbn [fst].
      repeat split; try discriminate.
      intros [_ Ht]. exfalso. apply Ht, encode_some_iff.
      unfold derived_seed in Hn. destruct (encode s); [eauto|discriminate].
    + assert (He : encode s = None).
      { unfold derived_seed in Hn. destruct (encode s) as [data|]; [|reflexivity].
        destruct (seed_hash_of_total data) as (n & Hs & _). congruence. }
      rewrite (get_palette_unencodable s g Hb He). cbn [fst].
      repeat split; try discriminate; try assumption.
      now apply encode_none_not_text.
Qed.

(** X7: the loop of [get_palette], from any list [colors] and for any
    number of turns: it keeps the entries it finds, appends one color per
    turn, each of the pattern [#[0-9a-f]{6}], and uses three draws per
    turn. *)
Theorem draw_colors_appends (n : nat) (acc : list str) (g : random.generator) :
  exists cs,
    draw_colors n acc g = (Return (acc ++ cs), snd (randints (3 * n) g))
    /\ length cs = n
    /\ Forall (fun c => matches_hex_color c = true /\ length c = 7%nat) cs.
Proof.
  exists (hex_colors (fst (randints (3 * n) g))).
  split; [apply draw_colors_randints|]. split.
  - apply hex_colors_length, randints_length.
  - apply (hex_colors_matches (3 * n)).
    + now rewrite randints_length.
    + apply randints_range.
Qed.

(** X8: the colors follow the derived seed, not the string: two seeds
    with the same first eight digest digits get the same colors and
    leave the generator in the same state, whatever state each call
    found. *)
Theorem colors_follow_derived_seed
    (s1 s2 : str) (n : Z) (g1 g2 : random.generator) :
  strip s1 <> [] -> strip s2 <> [] ->
  derived_seed s1 = Some n -> derived_seed s2 = Some n ->
  exists p1 p2,
    fst (get_palette s1 g1) = Return p1
    /\ fst (get_palette s2 g2) = Return p2
    /\ colors p1 = colors p2
    /\ snd (get_palette s1 g1) = snd (get_palette s2 g2).
Proof.
  intros H1 H2 Hn1 Hn2.
  exists (palette_from s1 n), (palette_from s2 n).
  rewrite (get_palette_seeded s1 n g1 H1 Hn1).
  rewrite (get_palette_seeded s2 n g2 H2 Hn2).
  repeat split.
Qed.

Lemma palette_route_blank (s : str) (g : random.generator) :
  forallb isspace s = true ->
  palette_route (Some s) g =
  ({| status_code := 422;
      content := Detail (lit "s must not be blank") |}, g).
Proof.
  intros H. apply strip_nil_iff in H. unfold palette_route.
  now rewrite (get_palette_blank s g H).
Qed.

Lemma palette_route_text (s : str) (g : random.generator) :
  forallb isspace s = false -> is_text s ->
  exists n,
    derived_seed s = Some n
    /\ palette_route (Some s) g =
       ({| status_code := 200; content := Palette (palette_from s n) |},
        snd (randints 15 (random.seed n))).
Proof.
  intros Hf Ht. destruct (derived_seed_text s Ht) as (n & Hn & _).
  exists n. split; [exact Hn|]. unfold palette_route.
  assert (Hb : strip s <> []) by (rewrite strip_nil_iff, Hf; discriminate).
  now rewrite (get_palette_seeded s n g Hb Hn).
Qed.

Lemma palette_route_surrogate (s : str) (g : random.generator) :
  forallb isspace s = false -> ~ is_text s ->
  palette_route (Some s) g =
  ({| status_code := 500; content := ServerError |}, g).
Proof.
  intros Hf Ht. unfold palette_route.
  assert (Hb : strip s <> []) by (rewrite strip_nil_iff, Hf; discriminate).
  assert (He : encode s = None).
  { destruct (encode s) as [d|] eqn:E; [|reflexivity].
    exfalso. apply Ht, encode_some_iff. eauto. }
  now rewrite (get_palette_unencodable s g Hb He).
Qed.

(** X9: the status of [GET /palette] tells the case: 200 exactly for a
    text that is not blank, 422 exactly for a missing or blank [s], 500
    exactly for a non-blank string with a lone surrogate; and only an
    answer 200 goes with a change of the generator. *)
Theorem palette_route_status (q : option str) (g : random.generator) :
  (status_code (fst (palette_route q g)) = 200
   <-> exists s, q = Some s /\ forallb isspace s = false /\ is_text s)
  /\ (status_code (fst (palette_route q g)) = 422
      <-> q = None \/ exists s, q = Some s /\ forallb isspace s = true)
  /\ (status_code (fst (palette_route q g)) = 500
      <-> exists s, q = Some s /\ forallb isspace s = false /\ ~ is_text s)
  /\ (status_code (fst (palette_route q g)) <> 200 ->
      snd (palette_route q g) = g).
Proof.
  destruct q as [s|].
  - destruct (forallb isspace s) eqn:Hf.
    + rewrite (palette_route_blank s g Hf). cbn [fst snd status_code].
      repeat split; try discriminate; eauto.
      * intros (s' & [= <-] & Hs & _). congruence.
      * intros (s' & [= <-] & Hs & _). congruence.
    + destruct (is_text_or_not s) as [Ht|Ht].
      * destruct (palette_route_text s g Hf Ht) as (n & _ & ->).
        cbn [fst snd status_code].
        repeat split; try discriminate; try congruence; eauto.
        -- intros [H|(s' & [= <-] & Hs)]; congruence.
        -- intros (s' & [= <-] & _ & Hn). contradiction.
      * rewrite (palette_route_surrogate s g Hf Ht). cbn [fst snd status_code].
        repeat split; try discriminate; eauto.
        -- intros (s' & [= <-] & _ & Hn). contradiction.
        -- intros [H|(s' & [= <-] & Hs)]; congruence.
  - cbn [palette_route fst snd status_code].
    repeat split; try discriminate; auto.
    + intros (s' & H & _). discriminate.
    + intros (s' & H & _). discriminate.
Qed.

(** X10: the four keywords made from [s] and a suffix begin with [s] and
    are pairwise distinct; on an ASCII seed the five keywords are. *)
Theorem keywords_distinct (s : str) (g : random.generator) :
  is_text s -> strip s <> [] ->
  exists p,
    fst (get_palette s g) = Return p
    /\ Forall (fun k => firstn (length s) k = s) (tl (keywords p))
    /\ NoDup (tl (keywords p))
    /\ (is_ascii s -> NoDup (keywords p)).
Proof.
  intros Ht Hs. destruct (derived_seed_text s Ht) as (n & Hn & _).
  exists (palette_from s n). rewrite (get_palette_seeded s n g Hs Hn).
  cbn [fst palette_from keywords tl].
  assert (Hp : forall x, firstn (length s) (s ++ x) = s).
  { intros x. rewrite firstn_app, firstn_all, Nat.sub_diag.
    cbn [firstn]. apply app_nil_r. }
  assert (Hd : NoDup [s ++ lit "-vibe"; s ++ lit "-soft"; s ++ lit "-bold";
                      s ++ lit "-contrast"]).
  { repeat constructor; cbn [In]; intros H;
      repeat (destruct H as [H|H]; [apply app_inv_head in H; discriminate|]);
      exact H. }
  split; [reflexivity|]. split; [repeat constructor; apply Hp|].
  split; [exact Hd|].
  intros Ha. constructor; [|exact Hd].
  rewrite (lower_ascii s Ha). cbn [In]. intros H.
  repeat (destruct H as [H|H];
          [apply (f_equal (@length Z)) in H;
           rewrite length_app, length_map in H; cbn [lit length] in H;
           cbn in H; lia|]).
  exact H.
Qed.

End More.

(** ** The script of the page *)

Section Script_facts.

Import Page.

Context {R : random.Interface} {U : CaseMapping}.

Lemma well_formed_iff (s : str) : well_formed s = true <-> is_text s.
Proof.
  unfold well_formed, is_text. rewrite forallb_forall, Forall_forall. tauto.
Qed.

Lemma trim_text (s : str) : is_text s -> is_text (trim s).
Proof. apply strip_by_Forall. Qed.

Lemma trim_nil_iff (s : str) :
  trim s = [] <-> forallb is_white_space s = true.
Proof. apply strip_by_nil_iff. Qed.

(** The three ways through [generatePalette] on a text. *)
Lemma generatePalette_empty (pg : page) (g : random.generator) :
  forallb is_white_space (value pg) = true ->
  generatePalette pg g =
  ({| value := value pg;
      error := Text (lit "Please enter a keyword");
      swatches := [];
      paletteKeyword := paletteKeyword pg |}, g).
Proof.
  intros H. apply trim_nil_iff in H. unfold generatePalette.
  cbv zeta. now rewrite H.
Qed.

Lemma generatePalette_sends (pg : page) (g : random.generator) :
  is_text (value pg) ->
  forallb is_white_space (value pg) = false ->
  generatePalette pg g =
  let keyword := trim (value pg) in
  let (response, g') := palette_route (Some keyword) g in
  if forallb isspace keyword then
    ({| value := value pg;
        error := Text (lit "s must not be blank");
        swatches := [];
        paletteKeyword := Some keyword |}, g')
  else
    match content response with
    | Palette data =>
        ({| value := value pg; error := Text (lit "");
            swatches := colors data;
            paletteKeyword := Some keyword |}, g')
    | _ =>
        ({| value := value pg; error := Other; swatches := [];
            paletteKeyword := Some keyword |}, g')
    end.
Proof.
  intros Ht Hw. unfold generatePalette. cbv zeta.
  assert (Hk : truthy (trim (value pg)) = true).
  { destruct (trim (value pg)) eqn:E; [|reflexivity].
    apply trim_nil_iff in E. congruence. }
  rewrite Hk. cbn [negb].
  assert (Hwf : well_formed (trim (value pg)) = true)
    by now apply well_formed_iff, trim_text.
  rewrite Hwf. cbn [negb].
  destruct (forallb isspace (trim (value pg))) eqn:Hf.
  - now rewrite (palette_route_blank _ g Hf).
  - destruct (palette_route_text _ g Hf (trim_text _ Ht)) as (n & _ & ->).
    reflexivity.
Qed.


(** X12: the check of the script and the check of the server differ.
    When a text passes [trim] and the server still answers
    [s must not be blank], the keyword is made of whitespace of Python
    only, and it begins and ends with one of the five characters that
    [str.strip] removes and [trim] does not: U+001C to U+001F and
    U+0085. *)
Theorem generatePalette_server_blank (pg : page) (g : random.generator) :
  is_text (value pg) ->
  error (fst (generatePalette pg g)) = Text (lit "s must not be blank") ->
  forallb isspace (trim (value pg)) = true
  /\ exists c t d u,
       trim (value pg) = c :: t
       /\ rev (trim (value pg)) = d :: u
       /\ (0x1C <= c <= 0x1F \/ c = 0x85)
       /\ (0x1C <= d <= 0x1F \/ d = 0x85).
Proof.
  intros Ht He.
  destruct (forallb is_white_space (value pg)) eqn:Hw.
  { rewrite (generatePalette_empty pg g Hw) in He. discriminate. }
  rewrite (generatePalette_sends pg g Ht Hw) in He. cbv zeta in He.
  destruct (forallb isspace (trim (value pg))) eqn:Hf.
  2:{ destruct (palette_route_text _ g Hf (trim_text _ Ht)) as (n & _ & Hr).
      rewrite Hr in He. discriminate. }
  split; [reflexivity|].
  assert (G : forall c, isspace c = true -> is_white_space c = false ->
                        0x1C <= c <= 0x1F \/ c = 0x85).
  { intros c Hs Hj. unfold isspace in Hs. unfold is_white_space in Hj.
    repeat rewrite orb_true_iff in Hs. repeat rewrite orb_false_iff in Hj.
    repeat rewrite andb_true_iff in Hs. repeat rewrite andb_false_iff in Hj.
    repeat rewrite Z.leb_le in Hs. repeat rewrite Z.eqb_eq in Hs.
    repeat rewrite Z.leb_gt in Hj. repeat rewrite Z.eqb_neq in Hj. lia. }
  destruct (trim (value pg)) as [|c t] eqn:Ek.
  { apply trim_nil_iff in Ek. congruence. }
  destruct (rev (c :: t)) as [|d u] eqn:Er.
  { apply (f_equal (@length Z)) in Er. rewrite length_rev in Er. discriminate. }
  exists c, t, d, u. repeat split.
  - apply G.
    + cbn [forallb] in Hf. now apply andb_true_iff in Hf.
    + exact (strip_by_first _ _ _ _ Ek).
  - apply G.
    + rewrite <- (forallb_rev isspace), Er in Hf. cbn [forallb] in Hf.
      now apply andb_true_iff in Hf.
    + apply (strip_by_last is_white_space (value pg) d u).
      fold (trim (value pg)). now rewrite Ek.
Qed.


Lemma forallb_false_ex (p : Z -> bool) (s : str) :
  forallb p s = false -> exists c, In c s /\ p c = false.
Proof.
  induction s as [|a s IH]; cbn [forallb]; [discriminate|].
  destruct (p a) eqn:E; cbn [andb].
  - intros H. destruct (IH H) as (c & Hc & Hp). exists c. split; [now right|exact Hp].
  - intros _. exists a. split; [now left|exact E].
Qed.

Lemma get_palette_return_text (s : str) (g : random.generator)
    (p : PaletteResponse) :
  fst (get_palette s g) = Return p -> forallb isspace s = false /\ is_text s.
Proof.
  intros H. destruct (forallb isspace s) eqn:Hf.
  - apply strip_nil_iff in Hf. rewrite (get_palette_blank s g Hf) in H.
    discriminate.
  - split; [reflexivity|]. destruct (is_text_or_not s) as [Ht|Ht]; [exact Ht|].
    assert (Hb : strip s <> []) by (rewrite strip_nil_iff, Hf; discriminate).
    assert (He : encode s = None).
    { destruct (encode s) as [d|] eqn:E; [|reflexivity].
      exfalso. apply Ht, encode_some_iff. eauto. }
    rewrite (get_palette_unencodable s g Hb He) in H. discriminate.
Qed.

Lemma lstrip_by_ext (p q : Z -> bool) (s : str) :
  Forall (fun c => p c = q c) s -> lstrip_by p s = lstrip_by q s.
Proof.
  induction 1 as [|c t Hc _ IH]; [reflexivity|].
  cbn [lstrip_by]. now rewrite Hc, IH.
Qed.

(** X14: the other way round.  When the script refuses a value with
    [Please enter a keyword] although [get_palette] returns a palette
    for it, the value holds U+FEFF, the one character [trim] removes
    and [str.strip] does not. *)
Theorem generatePalette_refuses_accepted
    (pg : page) (g : random.generator) (p : PaletteResponse) :
  error (fst (generatePalette pg g)) = Text (lit "Please enter a keyword") ->
  fst (get_palette (value pg) g) = Return p ->
  In 0xFEFF (value pg).
Proof.
  intros He Hp. destruct (get_palette_return_text _ _ _ Hp) as [Hf Ht].
  destruct (forallb is_white_space (value pg)) eqn:Hw.
  - destruct (forallb_false_ex _ _ Hf) as (c & Hc & Hs).
    rewrite forallb_forall in Hw. specialize (Hw c Hc).
    replace 0xFEFF with c; [exact Hc|].
    unfold isspace in Hs. unfold is_white_space in Hw.
    repeat rewrite orb_true_iff in Hw. repeat rewrite orb_false_iff in Hs.
    repeat rewrite andb_true_iff in Hw. repeat rewrite andb_false_iff in Hs.
    repeat rewrite Z.leb_le in Hw. repeat rewrite Z.eqb_eq in Hw.
    repeat rewrite Z.leb_gt in Hs. repeat rewrite Z.eqb_neq in Hs. lia.
  - rewrite (generatePalette_sends pg g Ht Hw) in He. cbv zeta in He.
    destruct (forallb isspace (trim (value pg))) eqn:Hk.
    + rewrite (palette_route_blank _ g Hk) in He. discriminate.
    + destruct (palette_route_text _ g Hk (trim_text _ Ht)) as (n & _ & Hr).
      rewrite Hr in He. discriminate.
Qed.

(** X15: away from six characters the two checks are one.  On a value
    without U+001C to U+001F, U+0085 and U+FEFF, [trim] of the script
    and [str.strip] of the handlers give the same string, so the
    keyword the script sends is never blank for the server. *)
Theorem trim_eq_strip (s : str) :
  Forall (fun c => ~ (0x1C <= c <= 0x1F) /\ c <> 0x85 /\ c <> 0xFEFF) s ->
  trim s = strip s
  /\ (forallb is_white_space s = false ->
      forallb isspace (trim s) = false).
Proof.
  intros H.
  assert (E : Forall (fun c => is_white_space c = isspace c) s).
  { eapply Forall_impl; [|exact H]. intros c (H1 & H2 & H3).
    unfold is_white_space, isspace.
    destruct (Z.eqb_spec c 0xFEFF) as [->|_]; [contradiction|].
    rewrite orb_false_r.
    destruct (Z.eqb_spec c 0x85) as [->|_]; [contradiction|].
    rewrite orb_false_r.
    replace ((0x1C <=? c) && (c <=? 0x20)) with (c =? 0x20); [reflexivity|].
    destruct (Z.eqb_spec c 0x20) as [->|Hn]; [reflexivity|].
    symmetry. apply andb_false_iff. rewrite !Z.leb_gt. lia. }
  assert (T : trim s = strip s).
  { rewrite strip_eq. unfold trim, strip_by.
    rewrite (lstrip_by_ext _ _ s E). f_equal. apply lstrip_by_ext.
    apply Forall_rev.
    destruct (lstrip_by_split isspace s) as (l & Hl & _).
    rewrite Hl in E. now apply Forall_app in E. }
  split; [exact T|]. intros Hw.
  destruct (forallb isspace (trim s)) eqn:Hk; [|reflexivity].
  rewrite T in Hk. rewrite <- strip_nil_iff in Hk.
  rewrite !strip_eq, strip_by_idem, <- strip_eq, <- T in Hk.
  apply trim_nil_iff in Hk. congruence.
Qed.

End Script_facts.

(** ** The properties on CPython's generator *)

#[local] Existing Instance cpython_random.
#[local] Existing Instance ascii_case_mapping.

(** The test suite of RFC 1321. *)
Example md5_empty :
  MD5.hexdigest (lit "") = lit "d41d8cd98f00b204e9800998ecf8427e".
Proof. vm_compute. reflexivity. Qed.

Example md5_abc :
  MD5.hexdigest (lit "abc") = lit "900150983cd24fb0d6963f7d28e17f72".
Proof. vm_compute. reflexivity. Qed.

Example md5_two_blocks :
  MD5.hexdigest
    (lit "12345678901234567890123456789012345678901234567890123456789012345678901234567890")
  = lit "57edf4a22be3c955ac49da2e2107b67a".
Proof. vm_compute. reflexivity. Qed.

(** The first outputs of the reference implementation of MT19937 on its
    test key. *)
Example mt19937_reference_outputs :
  let g0 := MT19937.init_by_array [0x123; 0x234; 0x345; 0x456] in
  let (x1, g1) := MT19937.genrand_uint32 g0 in
  let (x2, g2) := MT19937.genrand_uint32 g1 in
  let (x3, _) := MT19937.genrand_uint32 g2 in
  [x1; x2; x3] = [1067595299; 955945823; 477289528].
Proof. vm_compute. reflexivity. Qed.

Example derived_seed_sunset : derived_seed sunset = Some 2297127009.
Proof. vm_compute. reflexivity. Qed.

(** [GET /palette?s=sunset] *)
Example get_palette_sunset :
  fst (get_palette sunset seeded_0) =
  Return {| seed := lit "sunset";
            colors := [lit "#4d6747"; lit "#1b747b"; lit "#2fcb9f";
                       lit "#bf59d1"; lit "#8ac52c"];
            keywords := [lit "sunset"; lit "sunset-vibe"; lit "sunset-soft";
                         lit "sunset-bold"; lit "sunset-contrast"] |}.
Proof. vm_compute. reflexivity. Qed.

(** A seed beyond ASCII: two ideographs, a blank, an accented letter and
    an emoji. *)
Example get_palette_unicode :
  let s := [0x65e5; 0x672c; 0x20; 0xe9; 0x1F600] in
  fst (get_palette s seeded_0) =
  Return {| seed := s;
            colors := [lit "#38b88f"; lit "#acf996"; lit "#508c18";
                       lit "#2f6959"; lit "#e45b9c"];
            keywords := [s; s ++ lit "-vibe"; s ++ lit "-soft";
                         s ++ lit "-bold"; s ++ lit "-contrast"] |}.
Proof. vm_compute. reflexivity. Qed.

(** A lone surrogate is a [str] but not text: [s.encode()] raises. *)
Example get_palette_lone_surrogate :
  get_palette [0xD800] seeded_0 = (Raise UnicodeEncodeError, seeded_0).
Proof. now apply get_palette_unencodable. Qed.

(** [test_hello_valid_name], [test_hello_valid_name_with_spaces] and
    [test_hello_invalid_whitespace_only] *)
Example hello_Mike :
  hello_route (lit "Mike") =
  {| status_code := 200; content := Hello {| message := lit "Hello, Mike!" |} |}.
Proof. reflexivity. Qed.

Example hello_John_Doe :
  hello_route (lit "John Doe") =
  {| status_code := 200;
     content := Hello {| message := lit "Hello, John Doe!" |} |}.
Proof. reflexivity. Qed.

Example hello_whitespace :
  hello_route (lit "   ") =
  {| status_code := 400; content := Detail (lit "Name cannot be empty") |}.
Proof. reflexivity. Qed.

(** *** Instances of the theorems *)

Lemma get_palette_twice_witness :
  strip sunset <> []
  /\ is_text sunset
  /\ exists p,
       fst (get_palette sunset seeded_0) = Return p
       /\ fst (get_palette sunset (snd (get_palette sunset seeded_0)))
          = Return p
       /\ length (colors p) = 5%nat
       /\ length (keywords p) = 5%nat.
Proof.
  assert (Hs : strip sunset <> []) by (vm_compute; discriminate).
  assert (Ht : is_text sunset) by (repeat constructor).
  split; [exact Hs|]. split; [exact Ht|].
  exact (proj2 (get_palette_twice sunset seeded_0 Hs) Ht).
Defined.

Lemma derived_seed_md5_prefix_witness :
  is_text sunset
  /\ exists data n b0 b1 b2 b3 rest,
       encode sunset = Some data
       /\ MD5.digest data = b0 :: b1 :: b2 :: b3 :: rest
       /\ int16 (firstn 8 (MD5.hexdigest data)) = Some n
       /\ n = be32 b0 b1 b2 b3
       /\ 0 <= n < 2 ^ 32
       /\ derived_seed sunset = Some n
       /\ (strip sunset <> [] ->
           forall g : @random.generator cpython_random,
             get_palette sunset g =
             (Return (palette_from sunset n),
              snd (randints 15 (random.seed n)))).
Proof.
  assert (Ht : is_text sunset) by (repeat constructor).
  split; [exact Ht|].
  exact (derived_seed_md5_prefix sunset Ht).
Defined.

Lemma get_palette_colors_witness :
  is_text sunset
  /\ strip sunset <> []
  /\ exists p n vs,
       fst (get_palette sunset seeded_0) = Return p
       /\ derived_seed sunset = Some n
       /\ vs = fst (randints 15 (random.seed n))
       /\ length vs = 15%nat
       /\ Forall (fun v => 0 <= v <= 255 /\ format_02x v = octet_digits v) vs
       /\ length (colors p) = 5%nat
       /\ (forall i, (i < 5)%nat ->
             nth i (colors p) [] =
             hex_color (nth (3 * i) vs 0) (nth (3 * i + 1) vs 0)
                       (nth (3 * i + 2) vs 0))
       /\ Forall (fun c => matches_hex_color c = true /\ length c = 7%nat)
                 (colors p).
Proof.
  assert (Hs : strip sunset <> []) by (vm_compute; discriminate).
  assert (Ht : is_text sunset) by (repeat constructor).
  split; [exact Ht|]. split; [exact Hs|].
  exact (get_palette_colors sunset seeded_0 Ht Hs).
Defined.

Lemma get_palette_keywords_witness :
  is_text sunset
  /\ strip sunset <> []
  /\ exists p,
       fst (get_palette sunset seeded_0) = Return p
       /\ seed p = sunset
       /\ keywords p =
          [lower sunset; sunset ++ lit "-vibe"; sunset ++ lit "-soft";
           sunset ++ lit "-bold"; sunset ++ lit "-contrast"]
       /\ (sunset = lit "sunset" ->
           keywords p =
           [lit "sunset"; lit "sunset-vibe"; lit "sunset-soft";
            lit "sunset-bold"; lit "sunset-contrast"]).
Proof.
  assert (Hs : strip sunset <> []) by (vm_compute; discriminate).
  assert (Ht : is_text sunset) by (repeat constructor).
  split; [exact Ht|]. split; [exact Hs|].
  exact (get_palette_keywords sunset seeded_0 Ht Hs).
Defined.

Lemma get_palette_raises_iff_blank_witness :
  is_text (lit " ")
  /\ match fst (get_palette (lit " ") seeded_0) with
     | Return _ => strip (lit " ") <> []
     | Raise e =>
         strip (lit " ") = []
         /\ e = HTTPException 422 (lit "s must not be blank")
     end.
Proof.
  assert (Ht : is_text (lit " ")) by (repeat constructor).
  split; [exact Ht|].
  exact (get_palette_raises_iff_blank (lit " ") seeded_0 Ht).
Defined.

Lemma hello_name_spec_witness :
  strip (lit " Mike ") <> []
  /\ hello_name (lit " Mike ") =
     Return {| message := lit "Hello,  Mike !" |}.
Proof.
  assert (Hs : strip (lit " Mike ") <> []) by (vm_compute; discriminate).
  split; [exact Hs|].
  exact (proj1 (hello_name_spec (lit " Mike ")) Hs).
Defined.

Lemma palette_route_errors_witness :
  strip (lit "   ") = []
  /\ palette_route None seeded_0 =
     ({| status_code := 422; content := ValidationErrors |}, seeded_0)
  /\ palette_route (Some (lit "   ")) seeded_0 =
     ({| status_code := 422;
         content := Detail (lit "s must not be blank") |}, seeded_0).
Proof.
  assert (Hb : strip (lit "   ") = []) by reflexivity.
  split; [exact Hb|].
  pose proof (palette_route_errors (lit "   ") seeded_0 Hb) as H.
  split; [exact (proj1 H) | exact (proj1 (proj2 H))].
Defined.

Lemma get_palette_blank_keeps_state_witness :
  strip (lit "   ") = []
  /\ fst (get_palette (lit "   ") seeded_0) =
     Raise (HTTPException 422 (lit "s must not be blank"))
  /\ snd (get_palette (lit "   ") seeded_0) = seeded_0.
Proof.
  assert (Hb : strip (lit "   ") = []) by reflexivity.
  split; [exact Hb|].
  exact (get_palette_blank_keeps_state (lit "   ") seeded_0 Hb).
Defined.

Lemma get_palette_shared_generator_witness :
  is_text sunset
  /\ strip sunset <> []
  /\ exists n,
       derived_seed sunset = Some n
       /\ snd (get_palette sunset seeded_0) =
          snd (randints 15 (random.seed n)).
Proof.
  assert (Hs : strip sunset <> []) by (vm_compute; discriminate).
  assert (Ht : is_text sunset) by (repeat constructor).
  split; [exact Ht|]. split; [exact Hs|].
  exact (proj2 (get_palette_shared_generator sunset seeded_0 seeded_0) Ht Hs).
Defined.

(** *** Where the code departs from the specification *)

(** C5: a string of one blank is not empty, and [get_palette] raises on
    it: the blankness test is in the handler. *)
Lemma get_palette_raises_on_whitespace :
  lit " " <> []
  /\ fst (get_palette (lit " ") seeded_0) =
     Raise (HTTPException 422 (lit "s must not be blank")).
Proof.
  split; [discriminate|].
  now rewrite (get_palette_blank (lit " ") seeded_0 eq_refl).
Qed.

(** C7: the answers to a missing [s] and to a blank [s] have the same
    status code, 422. *)
Lemma palette_errors_same_status_class :
  status_code (fst (palette_route None seeded_0)) = 422
  /\ status_code (fst (palette_route (Some (lit "   ")) seeded_0)) = 422
  /\ status_class (status_code (fst (palette_route None seeded_0))) =
     status_class
       (status_code (fst (palette_route (Some (lit "   ")) seeded_0))).
Proof.
  unfold palette_route.
  rewrite (get_palette_blank (lit "   ") seeded_0 eq_refl).
  repeat split.
Qed.

(** C8: the generator is not local to the call.  After
    [random.seed(0)], the next [random.randint(0, 255)] of any caller is
    another number once [get_palette("sunset")] has run in between. *)
Lemma get_palette_moves_shared_generator :
  fst (random.randint 0 255 (snd (get_palette sunset seeded_0)))
  <> fst (random.randint 0 255 seeded_0).
Proof. vm_compute. discriminate. Qed.

(** *** Instances of the further properties *)

Lemma get_palette_raise_keeps_state_witness :
  fst (get_palette [0xD800] seeded_0) = Raise UnicodeEncodeError
  /\ snd (get_palette [0xD800] seeded_0) = seeded_0.
Proof.
  assert (H : fst (get_palette [0xD800] seeded_0) = Raise UnicodeEncodeError)
    by (vm_compute; reflexivity).
  split; [exact H|].
  exact (get_palette_raise_keeps_state [0xD800] seeded_0 UnicodeEncodeError H).
Defined.

Lemma get_palette_exceptions_witness :
  fst (get_palette (lit " ") seeded_0) =
  Raise (HTTPException 422 (lit "s must not be blank"))
  /\ 422 = 422.
Proof.
  assert (H : fst (get_palette (lit " ") seeded_0) =
              Raise (HTTPException 422 (lit "s must not be blank")))
    by (vm_compute; reflexivity).
  split; [exact H|].
  exact (proj1 (proj2 (proj2 (get_palette_exceptions (lit " ") seeded_0))
                  422 (lit "s must not be blank") H)).
Defined.

Lemma hello_name_injective_witness :
  hello_name (lit "Mike") = Return {| message := lit "Hello, Mike!" |}
  /\ lit "Mike" = lit "Mike".
Proof.
  assert (H : hello_name (lit "Mike") =
              Return {| message := lit "Hello, Mike!" |}) by reflexivity.
  split; [exact H|].
  exact (hello_name_injective (lit "Mike") (lit "Mike") _ H H).
Defined.

Lemma hex_color_round_trip_witness :
  0 <= 77 <= 255 /\ 0 <= 103 <= 255 /\ 0 <= 71 <= 255
  /\ int16 (firstn 2 (skipn 1 (hex_color 77 103 71))) = Some 77
  /\ int16 (firstn 2 (skipn 3 (hex_color 77 103 71))) = Some 103
  /\ int16 (firstn 2 (skipn 5 (hex_color 77 103 71))) = Some 71.
Proof.
  assert (Hr : 0 <= 77 <= 255) by lia.
  assert (Hg : 0 <= 103 <= 255) by lia.
  assert (Hb : 0 <= 71 <= 255) by lia.
  split; [exact Hr|]. split; [exact Hg|]. split; [exact Hb|].
  exact (hex_color_round_trip 77 103 71 Hr Hg Hb).
Defined.

(** Two seeds with the derived seed 298462585. *)
Lemma colors_follow_derived_seed_witness :
  strip (lit "color11755") <> []
  /\ strip (lit "color39672") <> []
  /\ derived_seed (lit "color11755") = Some 298462585
  /\ derived_seed (lit "color39672") = Some 298462585
  /\ exists p1 p2,
       fst (get_palette (lit "color11755") seeded_0) = Return p1
       /\ fst (get_palette (lit "color39672") seeded_0) = Return p2
       /\ colors p1 = colors p2
       /\ snd (get_palette (lit "color11755") seeded_0) =
          snd (get_palette (lit "color39672") seeded_0).
Proof.
  assert (H1 : strip (lit "color11755") <> []) by (vm_compute; discriminate).
  assert (H2 : strip (lit "color39672") <> []) by (vm_compute; discriminate).
  assert (N1 : derived_seed (lit "color11755") = Some 298462585)
    by (vm_compute; reflexivity).
  assert (N2 : derived_seed (lit "color39672") = Some 298462585)
    by (vm_compute; reflexivity).
  split; [exact H1|]. split; [exact H2|]. split; [exact N1|]. split; [exact N2|].
  exact (colors_follow_derived_seed _ _ _ seeded_0 seeded_0 H1 H2 N1 N2).
Defined.

Lemma palette_route_status_witness :
  status_code (fst (palette_route None seeded_0)) <> 200
  /\ snd (palette_route None seeded_0) = seeded_0.
Proof.
  assert (H : status_code (fst (palette_route None seeded_0)) <> 200)
    by (cbn; discriminate).
  split; [exact H|].
  exact (proj2 (proj2 (proj2 (palette_route_status None seeded_0))) H).
Defined.

Lemma keywords_distinct_witness :
  is_text sunset
  /\ strip sunset <> []
  /\ exists p,
       fst (get_palette sunset seeded_0) = Return p
       /\ Forall (fun k => firstn (length sunset) k = sunset) (tl (keywords p))
       /\ NoDup (tl (keywords p))
       /\ (is_ascii sunset -> NoDup (keywords p)).
Proof.
  assert (Hs : strip sunset <> []) by (vm_compute; discriminate).
  assert (Ht : is_text sunset) by (repeat constructor).
  split; [exact Ht|]. split; [exact Hs|].
  exact (keywords_distinct sunset seeded_0 Ht Hs).
Defined.


(** A keyword of one U+001C: kept by [trim], blank for the server. *)
Lemma generatePalette_server_blank_witness :
  is_text [0x1C]
  /\ Page.error (fst (Page.generatePalette (Page.initial [0x1C]) seeded_0))
     = Page.Text (lit "s must not be blank")
  /\ forallb isspace (Page.trim [0x1C]) = true.
Proof.
  assert (Ht : is_text [0x1C]) by (repeat constructor).
  assert (He : Page.error
                 (fst (Page.generatePalette (Page.initial [0x1C]) seeded_0))
               = Page.Text (lit "s must not be blank"))
    by (vm_compute; reflexivity).
  split; [exact Ht|]. split; [exact He|].
  exact (proj1 (generatePalette_server_blank
                  (Page.initial [0x1C]) seeded_0 Ht He)).
Defined.


(** A value of one U+FEFF: refused by the script, a seed for the
    handler. *)
Lemma generatePalette_refuses_accepted_witness :
  Page.error (fst (Page.generatePalette (Page.initial [0xFEFF]) seeded_0))
  = Page.Text (lit "Please enter a keyword")
  /\ (exists p, fst (get_palette [0xFEFF] seeded_0) = Return p)
  /\ In 0xFEFF [0xFEFF].
Proof.
  assert (He : Page.error
                 (fst (Page.generatePalette (Page.initial [0xFEFF]) seeded_0))
               = Page.Text (lit "Please enter a keyword"))
    by (vm_compute; reflexivity).
  assert (Hp : fst (get_palette [0xFEFF] seeded_0) =
               Return (palette_from [0xFEFF] 3970599159))
    by (vm_compute; reflexivity).
  split; [exact He|]. split; [eexists; exact Hp|].
  exact (generatePalette_refuses_accepted
           (Page.initial [0xFEFF]) seeded_0 _ He Hp).
Defined.

Lemma trim_eq_strip_witness :
  Forall (fun c => ~ (0x1C <= c <= 0x1F) /\ c <> 0x85 /\ c <> 0xFEFF)
         (lit " a ")
  /\ Page.trim (lit " a ") = strip (lit " a ").
Proof.
  assert (H : Forall (fun c => ~ (0x1C <= c <= 0x1F) /\ c <> 0x85
                               /\ c <> 0xFEFF) (lit " a "))
    by (repeat constructor; cbn; lia).
  split; [exact H|].
  exact (proj1 (trim_eq_strip (lit " a ") H)).
Defined.
